(** * SmartThings media player: a shallow embedding of
      [custom_components/smartthings/media_player.py]

    The adapter is a thin layer: a capability filter, a feature-mask
    resolver, a read-only state derivation, feature-gated property
    accessors and a command dispatcher.  Python values are modelled by
    a small universe [pyval]; Python floats are IEEE binary64 numbers
    ([PrimFloat.float]); exceptions are explicit ([result]); the remote
    command executor is an explicit log of submitted calls. *)

From Stdlib Require Import ZArith Bool Lia Btauto.
From Stdlib Require Import Floats.PrimFloat Floats.FloatOps Floats.SpecFloat.
From Stdlib Require Import Floats.FloatAxioms.
From Stdlib Require Import Numbers.Cyclic.Int63.Uint63.
From stdpp Require Import base decidable option list gmap strings.

Set Warnings "-register-all".
Local Open Scope Z_scope.

(** ** Python values and exceptions *)

(** The values a status snapshot can hold (JSON-decoded) and that the
    accessors hand back to the host. *)
Inductive pyval : Type :=
  | VNone
  | VBool (b : bool)
  | VInt (z : Z)
  | VFloat (f : float)
  | VStr (s : string)
  | VList (l : list pyval).

Inductive exn : Type :=
  | TypeError
  | ValueError
  | OverflowError
  | KeyError
  | AttributeError
  | RemoteError (code : Z).

Inductive result (A : Type) : Type :=
  | Ok (a : A)
  | Raise (e : exn).
Arguments Ok {A} a.
Arguments Raise {A} e.

#[global] Instance result_ret : MRet result := fun A a => Ok a.
#[global] Instance result_bind : MBind result := fun A B k r =>
  match r with
  | Ok a => k a
  | Raise e => Raise e
  end.

(** [bool(v)]: Python truthiness. *)
Definition py_truthy (v : pyval) : bool :=
  match v with
  | VNone => false
  | VBool b => b
  | VInt z => negb (z =? 0)
  | VFloat f => negb (PrimFloat.eqb f 0%float)
  | VStr s => negb (String.eqb s "")
  | VList l => match l with [] => false | _ => true end
  end.

(** [v is not None]. *)
Definition py_is_not_none (v : pyval) : bool :=
  match v with
  | VNone => false
  | _ => true
  end.

(** [v in l] for a list [l] of [str]: element-wise [==]; only a [str]
    compares equal to a [str]. *)
Definition py_in_str_list (v : pyval) (l : list string) : bool :=
  match v with
  | VStr s => bool_decide (s ∈ l)
  | _ => false
  end.

(** Lookup of the key [v] in a [dict] with [str] keys: hashing an
    unhashable key (a [list]) raises [TypeError]; a hashable key that is
    not a [str] equals no key. *)
Definition py_dict_find {A : Type} (d : gmap string A) (v : pyval)
  : result (option A) :=
  match v with
  | VList _ => Raise TypeError
  | VStr s => Ok (d !! s)
  | _ => Ok None
  end.

(** [v in d]. *)
Definition py_dict_contains {A : Type} (d : gmap string A) (v : pyval)
  : result bool :=
  found ← py_dict_find d v;
  mret (bool_decide (is_Some found)).

(** [d[v]]. *)
Definition py_dict_getitem {A : Type} (d : gmap string A) (v : pyval)
  : result A :=
  found ← py_dict_find d v;
  match found with
  | Some a => Ok a
  | None => Raise KeyError
  end.

(** [int(x)] for a float [x]: truncation toward zero; [nan] and the
    infinities are refused. *)
Definition py_int_of_float (x : float) : result Z :=
  match Prim2SF x with
  | S754_zero _ => Ok 0
  | S754_infinity _ => Raise OverflowError
  | S754_nan => Raise ValueError
  | S754_finite s m e =>
      let magnitude := Z.shiftl (Z.pos m) e in
      Ok (if s then - magnitude else magnitude)
  end.

(** [float(n)] for an [int] [n]: the nearest binary64 number (ties to
    even); too large an [int] is refused. *)
Definition py_float_of_int (n : Z) : result float :=
  let f := SF2Prim (binary_normalize prec emax n 0 false) in
  if PrimFloat.is_infinity f then Raise OverflowError else Ok f.

(** ** The vendor library's and the host's constants *)

(** [pysmartthings.Capability]: capability identifiers are strings. *)
Module Capability.
Definition audio_mute : string := "audioMute".
Definition audio_volume : string := "audioVolume".
Definition media_input_source : string := "mediaInputSource".
Definition media_playback : string := "mediaPlayback".
Definition media_playback_repeat : string := "mediaPlaybackRepeat".
Definition media_playback_shuffle : string := "mediaPlaybackShuffle".
Definition switch : string := "switch".
End Capability.

(** [pysmartthings.Attribute], the members the adapter reads. *)
Module Attribute.
Inductive t : Type :=
  | SWITCH
  | MUTE
  | VOLUME
  | INPUT_SOURCE
  | SUPPORTED_INPUT_SOURCES
  | PLAYBACK_STATUS
  | PLAYBACK_SHUFFLE
  | PLAYBACK_REPEAT_MODE.
End Attribute.

(** [pysmartthings.Command], the members the adapter sends. *)
Module Command.
Inductive t : Type :=
  | OFF
  | ON
  | MUTE
  | UNMUTE
  | SET_VOLUME
  | VOLUME_UP
  | VOLUME_DOWN
  | PLAY
  | PAUSE
  | STOP
  | SET_INPUT_SOURCE
  | SET_PLAYBACK_SHUFFLE.

(** [Command.SET_PLAYBACK_REPEAT]: the vendor's enumeration has no
    member of this name (its repeat command is called
    [SET_PLAYBACK_REPEAT_MODE]), so evaluating the expression raises
    [AttributeError]. *)
Definition SET_PLAYBACK_REPEAT : result t := Raise AttributeError.
End Command.

(** [homeassistant.components.media_player.MediaPlayerEntityFeature]:
    an [IntFlag]; the members the adapter uses, with the host's values. *)
Module MediaPlayerEntityFeature.
Definition PAUSE : Z := 1.
Definition VOLUME_SET : Z := 4.
Definition VOLUME_MUTE : Z := 8.
Definition TURN_ON : Z := 128.
Definition TURN_OFF : Z := 256.
Definition VOLUME_STEP : Z := 1024.
Definition SELECT_SOURCE : Z := 2048.
Definition STOP : Z := 4096.
Definition PLAY : Z := 16384.
Definition SHUFFLE_SET : Z := 32768.
Definition REPEAT_SET : Z := 262144.
End MediaPlayerEntityFeature.

(** [homeassistant.components.media_player.MediaPlayerState]. *)
Module MediaPlayerState.
Inductive t : Type :=
  | OFF
  | ON
  | IDLE
  | PLAYING
  | PAUSED
  | STANDBY
  | BUFFERING.

#[global] Instance eq_dec : EqDecision t.
Proof. solve_decision. Defined.
End MediaPlayerState.

(** [homeassistant.components.media_player.RepeatMode], a [StrEnum]. *)
Module RepeatMode.
Inductive t : Type :=
  | ALL
  | OFF
  | ONE.

Definition value (r : t) : string :=
  match r with
  | ALL => "all"
  | OFF => "off"
  | ONE => "one"
  end.
End RepeatMode.

(** ** Module constants *)

Definition CONTROLLABLE_SOURCES : list string := ["bluetooth"; "wifi"].

Definition VALUE_TO_STATE : gmap string MediaPlayerState.t :=
  list_to_map
    [ ("buffering", MediaPlayerState.BUFFERING);
      ("pause", MediaPlayerState.PAUSED);
      ("paused", MediaPlayerState.PAUSED);
      ("play", MediaPlayerState.PLAYING);
      ("playing", MediaPlayerState.PLAYING);
      ("stop", MediaPlayerState.IDLE);
      ("stopped", MediaPlayerState.IDLE);
      ("on", MediaPlayerState.ON);
      ("off", MediaPlayerState.OFF) ].

(** ** Capability filter *)

Definition supported : list string :=
  [ Capability.audio_mute;
    Capability.audio_volume;
    Capability.media_input_source;
    Capability.media_playback;
    Capability.media_playback_repeat;
    Capability.media_playback_shuffle;
    Capability.switch ].

(** Must have one of these. *)
Definition media_player_capabilities : list string :=
  [ Capability.audio_mute;
    Capability.audio_volume;
    Capability.media_input_source;
    Capability.media_playback;
    Capability.media_playback_repeat;
    Capability.media_playback_shuffle ].

Definition get_capabilities (capabilities : list string)
  : option (list string) :=
  if existsb (fun capability => bool_decide (capability ∈ capabilities))
       media_player_capabilities
  then Some supported
  else None.

(** ** The device and the entity *)

(** The device as the adapter sees it.  The base class
    [SmartThingsEntity] (entity.py) is not part of the sources; what the
    adapter needs from it is kept abstract: the set of capabilities the
    device reports, the reader [get_attribute_value] (a field, so every
    theorem holds for every reader), and the flat attribute table
    [status.attributes] (name to [.value]). *)
Record Device : Type := {
  reported : gset string;
  get_attribute_value : string → Attribute.t → pyval;
  status_attributes : gmap string pyval
}.

(** Modelled from the spec: [SmartThingsEntity.supports_capability]
    (entity.py, not among the sources) is a set-membership test on the
    capabilities the device supports. *)
Definition supports_capability (S : gset string) (capability : string)
  : bool :=
  bool_decide (capability ∈ S).

Definition _determine_features (S : gset string) : Z :=
  let features :=
    Z.lor (Z.lor MediaPlayerEntityFeature.PLAY MediaPlayerEntityFeature.PAUSE)
          MediaPlayerEntityFeature.STOP in
  let features :=
    if supports_capability S Capability.audio_volume
    then Z.lor features
           (Z.lor MediaPlayerEntityFeature.VOLUME_SET
                  MediaPlayerEntityFeature.VOLUME_STEP)
    else features in
  let features :=
    if supports_capability S Capability.audio_mute
    then Z.lor features MediaPlayerEntityFeature.VOLUME_MUTE
    else features in
  let features :=
    if supports_capability S Capability.switch
    then Z.lor features
           (Z.lor MediaPlayerEntityFeature.TURN_ON
                  MediaPlayerEntityFeature.TURN_OFF)
    else features in
  let features :=
    if supports_capability S Capability.media_input_source
    then Z.lor features MediaPlayerEntityFeature.SELECT_SOURCE
    else features in
  let features :=
    if supports_capability S Capability.media_playback_shuffle
    then Z.lor features MediaPlayerEntityFeature.SHUFFLE_SET
    else features in
  let features :=
    if supports_capability S Capability.media_playback_repeat
    then Z.lor features MediaPlayerEntityFeature.REPEAT_SET
    else features in
  features.

(** The entity: a borrowed device and the mask cached by [__init__]. *)
Record SmartThingsMediaPlayer : Type := {
  _device : Device;
  _attr_supported_features : Z
}.

Definition __init__ (device : Device) : SmartThingsMediaPlayer :=
  {| _device := device;
     _attr_supported_features := _determine_features (reported device) |}.

(** The host's [supported_features] property returns the cached mask. *)
Definition supported_features (self : SmartThingsMediaPlayer) : Z :=
  _attr_supported_features self.

(** [mask & bit] used as a condition: a non-zero [IntFlag] is true. *)
Definition has_feature (mask bit : Z) : bool :=
  negb (Z.land mask bit =? 0).

(** ** Read-only properties *)

Section Adapter.

(** [float(s)] for a [str] [s] is the language runtime's number parser;
    it is kept abstract ([None]: the text is not a number). *)
Variable float_of_str : string → option float.

(** The remote command executor's verdict on a call, given the calls
    submitted before it.  The transport lives in the external client. *)
Variable remote : list (string * Command.t * option pyval)
                  → string * Command.t * option pyval → result unit.

(** [float(v)]. *)
Definition py_float (v : pyval) : result float :=
  match v with
  | VNone => Raise TypeError
  | VBool b => Ok (if b then 1%float else 0%float)
  | VInt n => py_float_of_int n
  | VFloat f => Ok f
  | VStr s =>
      match float_of_str s with
      | Some f => Ok f
      | None => Raise ValueError
      end
  | VList _ => Raise TypeError
  end.

Definition is_volume_muted (self : SmartThingsMediaPlayer) : pyval :=
  if has_feature (supported_features self)
       MediaPlayerEntityFeature.VOLUME_MUTE
  then get_attribute_value (_device self) Capability.audio_mute Attribute.MUTE
  else VNone.

Definition volume_level (self : SmartThingsMediaPlayer) : result pyval :=
  if has_feature (supported_features self)
       MediaPlayerEntityFeature.VOLUME_SET
  then
    let volume :=
      get_attribute_value (_device self) Capability.audio_volume
        Attribute.VOLUME in
    if py_is_not_none volume
    then f ← py_float volume; mret (VFloat (f / 100)%float)
    else mret VNone
  else mret VNone.

Definition source (self : SmartThingsMediaPlayer) : pyval :=
  if has_feature (supported_features self)
       MediaPlayerEntityFeature.SELECT_SOURCE
  then get_attribute_value (_device self) Capability.media_input_source
         Attribute.INPUT_SOURCE
  else VNone.

Definition source_list (self : SmartThingsMediaPlayer) : pyval :=
  if has_feature (supported_features self)
       MediaPlayerEntityFeature.SELECT_SOURCE
  then get_attribute_value (_device self) Capability.media_input_source
         Attribute.SUPPORTED_INPUT_SOURCES
  else VNone.

Definition shuffle (self : SmartThingsMediaPlayer) : pyval :=
  if has_feature (supported_features self)
       MediaPlayerEntityFeature.SHUFFLE_SET
  then get_attribute_value (_device self) Capability.media_playback_shuffle
         Attribute.PLAYBACK_SHUFFLE
  else VNone.

Definition repeat (self : SmartThingsMediaPlayer) : pyval :=
  if has_feature (supported_features self)
       MediaPlayerEntityFeature.REPEAT_SET
  then get_attribute_value (_device self) Capability.media_playback_repeat
         Attribute.PLAYBACK_REPEAT_MODE
  else VNone.

Definition state (self : SmartThingsMediaPlayer)
  : result MediaPlayerState.t :=
  if py_truthy
       (get_attribute_value (_device self) Capability.switch Attribute.SWITCH)
  then
    if py_is_not_none (source self)
       && py_in_str_list (source self) CONTROLLABLE_SOURCES
    then
      let playback_status :=
        get_attribute_value (_device self) Capability.media_playback
          Attribute.PLAYBACK_STATUS in
      known ← py_dict_contains VALUE_TO_STATE playback_status;
      if (known : bool)
      then py_dict_getitem VALUE_TO_STATE playback_status
      else mret MediaPlayerState.ON
    else mret MediaPlayerState.ON
  else mret MediaPlayerState.OFF.

Definition media_title (self : SmartThingsMediaPlayer) : result pyval :=
  st ← state self;
  if bool_decide (st ∈ [MediaPlayerState.PLAYING; MediaPlayerState.PAUSED])
     && bool_decide
          (is_Some (status_attributes (_device self) !! "trackDescription"))
  then
    match status_attributes (_device self) !! "trackDescription" with
    | Some value => mret value
    | None => Raise KeyError
    end
  else mret VNone.

(** ** Command dispatch *)

(** A submitted call: (capability, command, optional argument). *)
Definition Call : Type := string * Command.t * option pyval.

(** Actions run against the log of calls submitted so far. *)
Definition Exec (A : Type) : Type := list Call → result A * list Call.

Definition exec_lift {A : Type} (r : result A) : Exec A :=
  fun log => (r, log).

Definition exec_bind {A B : Type} (m : Exec A) (k : A → Exec B) : Exec B :=
  fun log =>
    match m log with
    | (Ok a, log') => k a log'
    | (Raise e, log') => (Raise e, log')
    end.

(** Modelled from the spec: [SmartThingsEntity.execute_device_command]
    (entity.py, not among the sources) submits the triple to the
    external executor; a failure of the executor propagates unchanged. *)
Definition execute_device_command (capability : string)
    (command : Command.t) (argument : option pyval) : Exec unit :=
  fun log =>
    let call := (capability, command, argument) in
    (remote log call, log ++ [call]).

Definition async_turn_off (self : SmartThingsMediaPlayer) : Exec unit :=
  execute_device_command Capability.switch Command.OFF None.

Definition async_turn_on (self : SmartThingsMediaPlayer) : Exec unit :=
  execute_device_command Capability.switch Command.ON None.

Definition async_mute_volume (self : SmartThingsMediaPlayer) (mute : bool)
  : Exec unit :=
  if mute
  then execute_device_command Capability.audio_mute Command.MUTE None
  else execute_device_command Capability.audio_mute Command.UNMUTE None.

Definition async_set_volume_level (self : SmartThingsMediaPlayer)
    (volume : float) : Exec unit :=
  exec_bind (exec_lift (py_int_of_float (volume * 100)%float))
    (fun argument =>
       execute_device_command Capability.audio_volume Command.SET_VOLUME
         (Some (VInt argument))).

Definition async_volume_up (self : SmartThingsMediaPlayer) : Exec unit :=
  execute_device_command Capability.audio_volume Command.VOLUME_UP None.

Definition async_volume_down (self : SmartThingsMediaPlayer) : Exec unit :=
  execute_device_command Capability.audio_volume Command.VOLUME_DOWN None.

Definition async_media_play (self : SmartThingsMediaPlayer) : Exec unit :=
  execute_device_command Capability.media_playback Command.PLAY None.

Definition async_media_pause (self : SmartThingsMediaPlayer) : Exec unit :=
  execute_device_command Capability.media_playback Command.PAUSE None.

Definition async_media_stop (self : SmartThingsMediaPlayer) : Exec unit :=
  execute_device_command Capability.media_playback Command.STOP None.

Definition async_select_source (self : SmartThingsMediaPlayer)
    (source : string) : Exec unit :=
  execute_device_command Capability.media_input_source
    Command.SET_INPUT_SOURCE (Some (VStr source)).

Definition async_set_shuffle (self : SmartThingsMediaPlayer)
    (shuffle : bool) : Exec unit :=
  execute_device_command Capability.media_playback_shuffle
    Command.SET_PLAYBACK_SHUFFLE (Some (VBool shuffle)).

Definition async_set_repeat (self : SmartThingsMediaPlayer)
    (repeat : RepeatMode.t) : Exec unit :=
  exec_bind (exec_lift Command.SET_PLAYBACK_REPEAT)
    (fun command =>
       execute_device_command Capability.media_playback_repeat
         command (Some (VStr (RepeatMode.value repeat)))).

End Adapter.

(** The spec's wording of the volume conversion rounds: [round(x)] for a
    float [x], to the nearest integer, ties to even.  Kept beside
    [py_int_of_float] to compare the two. *)
Definition py_round (x : float) : result Z :=
  match Prim2SF x with
  | S754_zero _ => Ok 0
  | S754_infinity _ => Raise OverflowError
  | S754_nan => Raise ValueError
  | S754_finite s m e =>
      let magnitude :=
        if 0 <=? e then Z.shiftl (Z.pos m) e
        else
          let scale := 2 ^ (- e) in
          let q := Z.pos m / scale in
          let r := Z.pos m mod scale in
          if 2 * r <? scale then q
          else if scale <? 2 * r then q + 1
          else if Z.even q then q else q + 1 in
      Ok (if s then - magnitude else magnitude)
  end.

(** ** Vocabulary of the properties *)

(** All the feature bits the resolver can produce. *)
Definition known_features : Z :=
  fold_right Z.lor 0
    [ MediaPlayerEntityFeature.PLAY; MediaPlayerEntityFeature.PAUSE;
      MediaPlayerEntityFeature.STOP; MediaPlayerEntityFeature.VOLUME_SET;
      MediaPlayerEntityFeature.VOLUME_STEP;
      MediaPlayerEntityFeature.VOLUME_MUTE;
      MediaPlayerEntityFeature.TURN_ON; MediaPlayerEntityFeature.TURN_OFF;
      MediaPlayerEntityFeature.SELECT_SOURCE;
      MediaPlayerEntityFeature.SHUFFLE_SET;
      MediaPlayerEntityFeature.REPEAT_SET ].

(** [bit] is set in [mask]. *)
Definition feature_in (bit mask : Z) : Prop := Z.land mask bit = bit.

(** The feature-gated accessors, with the gate and the attribute each
    one reads in the source. *)
Inductive Accessor : Type :=
  | IsVolumeMuted
  | VolumeLevel
  | Source
  | SourceList
  | Shuffle
  | Repeat.

Definition gate_of (a : Accessor) : Z :=
  match a with
  | IsVolumeMuted => MediaPlayerEntityFeature.VOLUME_MUTE
  | VolumeLevel => MediaPlayerEntityFeature.VOLUME_SET
  | Source => MediaPlayerEntityFeature.SELECT_SOURCE
  | SourceList => MediaPlayerEntityFeature.SELECT_SOURCE
  | Shuffle => MediaPlayerEntityFeature.SHUFFLE_SET
  | Repeat => MediaPlayerEntityFeature.REPEAT_SET
  end.

Definition attribute_of (a : Accessor) : string * Attribute.t :=
  match a with
  | IsVolumeMuted => (Capability.audio_mute, Attribute.MUTE)
  | VolumeLevel => (Capability.audio_volume, Attribute.VOLUME)
  | Source => (Capability.media_input_source, Attribute.INPUT_SOURCE)
  | SourceList =>
      (Capability.media_input_source, Attribute.SUPPORTED_INPUT_SOURCES)
  | Shuffle => (Capability.media_playback_shuffle, Attribute.PLAYBACK_SHUFFLE)
  | Repeat =>
      (Capability.media_playback_repeat, Attribute.PLAYBACK_REPEAT_MODE)
  end.

(** The host reading a property. *)
Definition read (float_of_str : string → option float)
    (self : SmartThingsMediaPlayer) (a : Accessor) : result pyval :=
  match a with
  | IsVolumeMuted => Ok (is_volume_muted self)
  | VolumeLevel => volume_level float_of_str self
  | Source => Ok (source self)
  | SourceList => Ok (source_list self)
  | Shuffle => Ok (shuffle self)
  | Repeat => Ok (repeat self)
  end.

(** The imperative actions with their arguments. *)
Inductive Action : Type :=
  | TurnOff
  | TurnOn
  | MuteVolume (mute : bool)
  | SetVolumeLevel (volume : float)
  | VolumeUp
  | VolumeDown
  | MediaPlay
  | MediaPause
  | MediaStop
  | SelectSource (source : string)
  | SetShuffle (shuffle : bool)
  | SetRepeat (repeat : RepeatMode.t).

(** The host invoking an action. *)
Definition invoke (remote : list Call → Call → result unit)
    (self : SmartThingsMediaPlayer) (a : Action) : Exec unit :=
  match a with
  | TurnOff => async_turn_off remote self
  | TurnOn => async_turn_on remote self
  | MuteVolume mute => async_mute_volume remote self mute
  | SetVolumeLevel volume => async_set_volume_level remote self volume
  | VolumeUp => async_volume_up remote self
  | VolumeDown => async_volume_down remote self
  | MediaPlay => async_media_play remote self
  | MediaPause => async_media_pause remote self
  | MediaStop => async_media_stop remote self
  | SelectSource source => async_select_source remote self source
  | SetShuffle shuffle => async_set_shuffle remote self shuffle
  | SetRepeat repeat => async_set_repeat remote self repeat
  end.

(** The capability an action addresses. *)
Definition capability_of (a : Action) : string :=
  match a with
  | TurnOff | TurnOn => Capability.switch
  | MuteVolume _ => Capability.audio_mute
  | SetVolumeLevel _ | VolumeUp | VolumeDown => Capability.audio_volume
  | MediaPlay | MediaPause | MediaStop => Capability.media_playback
  | SelectSource _ => Capability.media_input_source
  | SetShuffle _ => Capability.media_playback_shuffle
  | SetRepeat _ => Capability.media_playback_repeat
  end.

(** The host's contract on the arguments: a volume lies between 0.0
    and 1.0. *)
Definition well_formed (a : Action) : Prop :=
  match a with
  | SetVolumeLevel volume =>
      (0 <=? volume)%float = true ∧ (volume <=? 1)%float = true
  | _ => True
  end.

(** ** Sample snapshots *)

Definition sample_reader (switch source playback volume : pyval)
  : string → Attribute.t → pyval :=
  fun _ attribute =>
    match attribute with
    | Attribute.SWITCH => switch
    | Attribute.INPUT_SOURCE => source
    | Attribute.PLAYBACK_STATUS => playback
    | Attribute.VOLUME => volume
    | _ => VNone
    end.

Definition sample_device (switch source playback volume : pyval)
    (attributes : gmap string pyval) : Device :=
  {| reported := list_to_set supported;
     get_attribute_value := sample_reader switch source playback volume;
     status_attributes := attributes |}.

(** A player built by [__init__] on a device reporting all seven
    capabilities. *)
Definition sample_player (switch source playback volume : pyval)
    (attributes : gmap string pyval) : SmartThingsMediaPlayer :=
  __init__ (sample_device switch source playback volume attributes).

(** A player whose mask is empty: no feature bit at all. *)
Definition bare_player (switch source playback volume : pyval)
  : SmartThingsMediaPlayer :=
  {| _device := sample_device switch source playback volume ∅;
     _attr_supported_features := 0 |}.

(** An executor that accepts every call. *)
Definition accepting : list Call → Call → result unit :=
  fun _ _ => Ok tt.

(** A number parser that knows no text. *)
Definition no_parse : string → option float := fun _ => None.

(** ** Platform setup *)

(** [for x in v]: iterating [None] raises [TypeError]. *)
Definition py_iter {A : Type} (v : option (list A)) : result (list A) :=
  match v with
  | Some l => Ok l
  | None => Raise TypeError
  end.

(** [device.status[MAIN]] as a container of capability identifiers: its
    keys. *)
Definition status_main (device : Device) : list string :=
  elements (reported device).

(** The list handed to [async_add_entities]: the comprehension walks the
    devices in order; an exception in the filter aborts it and nothing
    is added. *)
Fixpoint async_setup_entry (devices : list Device)
  : result (list SmartThingsMediaPlayer) :=
  match devices with
  | [] => Ok []
  | device :: rest =>
      capabilities ← py_iter (get_capabilities (status_main device));
      let keep :=
        existsb
          (fun capability => bool_decide (capability ∈ status_main device))
          capabilities in
      entities ← async_setup_entry rest;
      mret (if keep then __init__ device :: entities else entities)
  end.

(** [homeassistant.components.media_player.MediaPlayerDeviceClass]. *)
Module MediaPlayerDeviceClass.
Inductive t : Type :=
  | TV
  | SPEAKER
  | RECEIVER.
End MediaPlayerDeviceClass.

Definition device_class (self : SmartThingsMediaPlayer)
  : MediaPlayerDeviceClass.t :=
  MediaPlayerDeviceClass.SPEAKER.

(** A device qualifies when it reports one of the primary
    capabilities. *)
Definition qualifies (device : Device) : Prop :=
  ∃ c, c ∈ media_player_capabilities ∧ c ∈ reported device.

(** The attributes of the snapshot that [state] depends on. *)
Definition switch_of (self : SmartThingsMediaPlayer) : pyval :=
  get_attribute_value (_device self) Capability.switch Attribute.SWITCH.

Definition input_source_of (self : SmartThingsMediaPlayer) : pyval :=
  get_attribute_value (_device self) Capability.media_input_source
    Attribute.INPUT_SOURCE.


(** A device reporting only the switch capability. *)
Definition switch_only_device : Device :=
  {| reported := {[Capability.switch]};
     get_attribute_value := sample_reader (VBool true) VNone VNone VNone;
     status_attributes := ∅ |}.

(** * Properties *)

(** ** Capability filter *)

Lemma get_capabilities_some (capabilities : list string) (c : string) :
  c ∈ media_player_capabilities → c ∈ capabilities →
  get_capabilities capabilities = Some supported.
Proof.
  intros Hprimary Hin. unfold get_capabilities.
  replace (existsb _ _) with true; [done|].
  symmetry. apply existsb_exists. exists c. split.
  - by apply list_elem_of_In.
  - by apply bool_decide_eq_true.
Qed.

Lemma get_capabilities_none (capabilities : list string) :
  (∀ c, c ∈ media_player_capabilities → c ∉ capabilities) →
  get_capabilities capabilities = None.
Proof.
  intros Hnone. unfold get_capabilities.
  destruct (existsb _ _) eqn:E; [|done].
  apply existsb_exists in E as (c & Hc & Hin).
  apply bool_decide_eq_true in Hin. apply list_elem_of_In in Hc.
  by destruct (Hnone c Hc).
Qed.

(** C4. For every list of reported capability identifiers,
    [get_capabilities] returns the full seven-capability list when one
    of the six primary capabilities (the seven without switch) is
    reported, and returns nothing when none of the six is; switch alone
    does not qualify. *)
Theorem get_capabilities_contract (capabilities : list string) :
  supported =
    [ "audioMute"; "audioVolume"; "mediaInputSource"; "mediaPlayback";
      "mediaPlaybackRepeat"; "mediaPlaybackShuffle"; "switch" ]
  ∧ media_player_capabilities
    = filter (λ c, c ≠ Capability.switch) supported
  ∧ ((∃ c, c ∈ media_player_capabilities ∧ c ∈ capabilities) →
     get_capabilities capabilities = Some supported)
  ∧ ((∀ c, c ∈ media_player_capabilities → c ∉ capabilities) →
     get_capabilities capabilities = None)
  ∧ get_capabilities [Capability.switch] = None.
Proof.
  split; [reflexivity|]. split; [reflexivity|]. split; [|split].
  - intros (c & Hprimary & Hin). by eapply get_capabilities_some.
  - apply get_capabilities_none.
  - reflexivity.
Qed.

(** ** Feature resolver *)

Ltac case_supports :=
  repeat match goal with
  | |- context [supports_capability ?S ?c] =>
      let E := fresh "E" in
      destruct (supports_capability S c) eqn:E
  end.

Lemma supports_capability_true (S : gset string) (c : string) :
  supports_capability S c = true ↔ c ∈ S.
Proof. apply bool_decide_eq_true. Qed.

(** C5. The feature mask computed at construction is exactly: the base
    bits PLAY, PAUSE and STOP; VOLUME_SET and VOLUME_STEP iff volume is
    supported; VOLUME_MUTE iff mute is; TURN_ON and TURN_OFF iff switch
    is; SELECT_SOURCE iff input-source is; SHUFFLE_SET iff shuffle is;
    REPEAT_SET iff repeat is; and no other bit. *)
Theorem determine_features_exact (device : Device) :
  let S := reported device in
  let mask := supported_features (__init__ device) in
  mask = _determine_features S
  ∧ feature_in MediaPlayerEntityFeature.PLAY mask
  ∧ feature_in MediaPlayerEntityFeature.PAUSE mask
  ∧ feature_in MediaPlayerEntityFeature.STOP mask
  ∧ (feature_in MediaPlayerEntityFeature.VOLUME_SET mask
     ↔ Capability.audio_volume ∈ S)
  ∧ (feature_in MediaPlayerEntityFeature.VOLUME_STEP mask
     ↔ Capability.audio_volume ∈ S)
  ∧ (feature_in MediaPlayerEntityFeature.VOLUME_MUTE mask
     ↔ Capability.audio_mute ∈ S)
  ∧ (feature_in MediaPlayerEntityFeature.TURN_ON mask
     ↔ Capability.switch ∈ S)
  ∧ (feature_in MediaPlayerEntityFeature.TURN_OFF mask
     ↔ Capability.switch ∈ S)
  ∧ (feature_in MediaPlayerEntityFeature.SELECT_SOURCE mask
     ↔ Capability.media_input_source ∈ S)
  ∧ (feature_in MediaPlayerEntityFeature.SHUFFLE_SET mask
     ↔ Capability.media_playback_shuffle ∈ S)
  ∧ (feature_in MediaPlayerEntityFeature.REPEAT_SET mask
     ↔ Capability.media_playback_repeat ∈ S)
  ∧ Z.land mask (Z.lnot known_features) = 0.
Proof.
  cbv zeta. split; [reflexivity|].
  change (supported_features (__init__ device))
    with (_determine_features (reported device)).
  generalize (reported device) as S. intros S.
  rewrite <- !supports_capability_true.
  unfold _determine_features, feature_in. case_supports;
    vm_compute; repeat split; congruence.
Qed.

(** A larger capability set gives a larger mask. *)
Lemma determine_features_subset (S S' : gset string) :
  S ⊆ S' →
  Z.land (_determine_features S) (_determine_features S')
  = _determine_features S.
Proof.
  intros Hsub.
  assert (Hmono : ∀ c, supports_capability S c = true →
                       supports_capability S' c = true).
  { intros c. rewrite !supports_capability_true. apply Hsub. }
  unfold _determine_features.
  repeat match goal with
  | |- context [supports_capability S ?c] =>
      let E := fresh "E" in
      destruct (supports_capability S c) eqn:E;
      [ rewrite (Hmono c E) | destruct (supports_capability S' c) ]
  end; reflexivity.
Qed.

(** C6. Adding a capability never clears a feature bit: every bit set
    in the mask of [S] is set in the mask of [S ∪ {c}]. *)
Theorem determine_features_monotone (S : gset string) (c : string) (n : Z) :
  Z.testbit (_determine_features S) n = true →
  Z.testbit (_determine_features (S ∪ {[c]})) n = true.
Proof.
  intros Hbit.
  rewrite <- (determine_features_subset S (S ∪ {[c]})) in Hbit
    by set_solver.
  rewrite Z.land_spec in Hbit. by apply andb_true_iff in Hbit as [_ ?].
Qed.

Lemma determine_features_monotone_witness :
  Z.testbit (_determine_features ∅) 14 = true
  ∧ Z.testbit (_determine_features (∅ ∪ {[Capability.audio_volume]})) 14
    = true.
Proof.
  split; [reflexivity|].
  apply (determine_features_monotone ∅ Capability.audio_volume 14).
  reflexivity.
Defined.

(** ** State derivation *)

Example state_playing :
  state (sample_player (VBool true) (VStr "bluetooth") (VStr "playing")
           VNone ∅) = Ok MediaPlayerState.PLAYING.
Proof. reflexivity. Qed.

Example state_idle :
  state (sample_player (VBool true) (VStr "wifi") (VStr "stopped") VNone ∅)
  = Ok MediaPlayerState.IDLE.
Proof. reflexivity. Qed.

Example state_hdmi :
  state (sample_player (VBool true) (VStr "hdmi") (VStr "playing") VNone ∅)
  = Ok MediaPlayerState.ON.
Proof. reflexivity. Qed.

Example state_no_source_feature :
  state (bare_player (VBool true) (VStr "wifi") (VStr "playing") VNone)
  = Ok MediaPlayerState.ON.
Proof. reflexivity. Qed.

(** The switch test is Python truthiness: a non-empty string counts as
    on, whatever it spells. *)
Example state_switch_text :
  state (sample_player (VStr "off") (VStr "hdmi") VNone VNone ∅)
  = Ok MediaPlayerState.ON.
Proof. reflexivity. Qed.

(** The range of the state table. *)
Lemma VALUE_TO_STATE_range (p : string) (st : MediaPlayerState.t) :
  VALUE_TO_STATE !! p = Some st →
  st ∈ [ MediaPlayerState.BUFFERING; MediaPlayerState.PAUSED;
         MediaPlayerState.PLAYING; MediaPlayerState.IDLE;
         MediaPlayerState.ON; MediaPlayerState.OFF ].
Proof.
  intros Hp. apply elem_of_map_to_list in Hp.
  assert (Hsnd : st ∈ (map_to_list VALUE_TO_STATE).*2).
  { apply list_elem_of_fmap. by exists (p, st). }
  revert Hsnd. vm_compute (map_to_list VALUE_TO_STATE).*2.
  intros Hsnd. apply list_elem_of_In in Hsnd. apply list_elem_of_In.
  simpl in *. tauto.
Qed.

(** Reading the state when the switch is on and the source is
    controllable comes down to one lookup in the table. *)
Lemma state_controllable (self : SmartThingsMediaPlayer) (src : string) :
  py_truthy
    (get_attribute_value (_device self) Capability.switch Attribute.SWITCH)
  = true →
  source self = VStr src → src ∈ CONTROLLABLE_SOURCES →
  state self
  = found ← py_dict_find VALUE_TO_STATE
              (get_attribute_value (_device self) Capability.media_playback
                 Attribute.PLAYBACK_STATUS);
    mret (default MediaPlayerState.ON found).
Proof.
  intros Hon Hsrc Hin. unfold state. rewrite Hon, Hsrc. cbn.
  rewrite bool_decide_eq_true_2 by done.
  unfold py_dict_contains, py_dict_getitem.
  destruct (py_dict_find _ _) as [[st|]|e]; reflexivity.
Qed.

(** The else branch: a switch value that tests false gives OFF,
    whatever the mask and the other attributes are. *)
Lemma state_off_when_switch_false (self : SmartThingsMediaPlayer) :
  py_truthy
    (get_attribute_value (_device self) Capability.switch Attribute.SWITCH)
  = false →
  state self = Ok MediaPlayerState.OFF.
Proof. intros Hoff. unfold state. by rewrite Hoff. Qed.

(** C2. The code where the claim fails: the vendor reports a switch that
    is off as the text "off" (the state table itself spells it so), and
    the source tests the value for truth; the text is not empty, so it
    counts as on, and the state is ON, or the mapped playback state,
    where the claim says OFF.  The same holds for every player whose
    switch value is that text. *)
Theorem state_switch_off_text :
  py_truthy (VStr "off") = true
  ∧ state (sample_player (VStr "off") (VStr "hdmi") (VStr "stopped")
             VNone ∅) = Ok MediaPlayerState.ON
  ∧ state (sample_player (VStr "off") (VStr "wifi") (VStr "playing")
             VNone ∅) = Ok MediaPlayerState.PLAYING
  ∧ state (bare_player (VStr "off") VNone VNone VNone)
    = Ok MediaPlayerState.ON
  ∧ ∀ self,
      get_attribute_value (_device self) Capability.switch
        Attribute.SWITCH = VStr "off" →
      state self = Ok MediaPlayerState.OFF →
      get_attribute_value (_device self) Capability.media_playback
        Attribute.PLAYBACK_STATUS = VStr "off".
Proof.
  split; [reflexivity|]. split; [reflexivity|]. split; [reflexivity|].
  split; [reflexivity|].
  intros self Hswitch Hstate. unfold state in Hstate.
  rewrite Hswitch in Hstate. cbn [py_truthy String.eqb negb] in Hstate.
  destruct (py_is_not_none (source self)
            && py_in_str_list (source self) CONTROLLABLE_SOURCES);
    [|discriminate].
  destruct (get_attribute_value _ Capability.media_playback _)
    as [|b|z|f|p|l]; try discriminate.
  assert (Hlook : VALUE_TO_STATE !! p = Some MediaPlayerState.OFF).
  { unfold py_dict_contains, py_dict_getitem in Hstate.
    change (py_dict_find VALUE_TO_STATE (VStr p))
      with (Ok (VALUE_TO_STATE !! p)) in Hstate.
    destruct (VALUE_TO_STATE !! p) as [st|]; [|discriminate].
    cbn in Hstate. by injection Hstate as ->. }
  apply elem_of_list_to_map_2, list_elem_of_In in Hlook.
  simpl in Hlook.
  repeat (destruct Hlook as [Hlook|Hlook];
          [try discriminate Hlook; by injection Hlook as <-|]).
  destruct Hlook.
Qed.

(** C1, as stated, fails.  By the table: with the switch on and a
    controllable source the playback status "off" is a key and the state
    is its image OFF, outside BUFFERING, PAUSED, PLAYING, IDLE (likewise
    "on" gives ON).  By the truth test of the switch: the text "off"
    counts as on, and the state is ON where the first step says OFF. *)
Lemma state_three_steps_counterexample :
  py_truthy (VBool true) = true
  ∧ VALUE_TO_STATE !! "off" = Some MediaPlayerState.OFF
  ∧ state (sample_player (VBool true) (VStr "wifi") (VStr "off") VNone ∅)
    = Ok MediaPlayerState.OFF
  ∧ (MediaPlayerState.OFF
     ∉ [ MediaPlayerState.BUFFERING; MediaPlayerState.PAUSED;
         MediaPlayerState.PLAYING; MediaPlayerState.IDLE ])
  ∧ state (sample_player (VBool true) (VStr "wifi") (VStr "on") VNone ∅)
    = Ok MediaPlayerState.ON
  ∧ state (sample_player (VStr "off") (VStr "hdmi") VNone VNone ∅)
    = Ok MediaPlayerState.ON.
Proof.
  repeat split; try reflexivity.
  intros Hin. apply list_elem_of_In in Hin. simpl in Hin.
  intuition discriminate.
Qed.

(** C1, amended. For every snapshot whose switch value is not the text
    "off", the state follows the three steps: a switch value that is
    false (False, None, 0, empty) gives OFF; any other switch value
    with a controllable selected source and a playback status in the
    table gives the mapped state, one of BUFFERING, PAUSED, PLAYING,
    IDLE, ON, OFF; any other switch value with a source that is absent
    or not controllable, or with a playback status that is absent or a
    text outside the table, gives ON. *)
Theorem state_three_steps (self : SmartThingsMediaPlayer) :
  let switch :=
    get_attribute_value (_device self) Capability.switch Attribute.SWITCH in
  let playback_status :=
    get_attribute_value (_device self) Capability.media_playback
      Attribute.PLAYBACK_STATUS in
  let controllable :=
    ∃ src, source self = VStr src ∧ src ∈ CONTROLLABLE_SOURCES in
  switch ≠ VStr "off" →
  (py_truthy switch = false → state self = Ok MediaPlayerState.OFF)
  ∧ (py_truthy switch = true → controllable →
     ∀ p st, playback_status = VStr p → VALUE_TO_STATE !! p = Some st →
       state self = Ok st
       ∧ st ∈ [ MediaPlayerState.BUFFERING; MediaPlayerState.PAUSED;
                MediaPlayerState.PLAYING; MediaPlayerState.IDLE;
                MediaPlayerState.ON; MediaPlayerState.OFF ])
  ∧ (py_truthy switch = true → ¬ controllable →
     state self = Ok MediaPlayerState.ON)
  ∧ (py_truthy switch = true → controllable →
     (∀ l, playback_status ≠ VList l) →
     (∀ p, playback_status = VStr p → VALUE_TO_STATE !! p = None) →
     state self = Ok MediaPlayerState.ON).
Proof.
  cbv zeta. intros _. split; [|split; [|split]].
  - intros Hoff. unfold state. by rewrite Hoff.
  - intros Hon (src & Hsrc & Hin) p st Hp Hst.
    rewrite (state_controllable self src Hon Hsrc Hin), Hp.
    change (py_dict_find VALUE_TO_STATE (VStr p))
      with (Ok (VALUE_TO_STATE !! p)).
    rewrite Hst. split; [done|]. by eapply VALUE_TO_STATE_range.
  - intros Hon Hnot. unfold state. rewrite Hon.
    destruct (source self) as [|b|z|f|src|l] eqn:Hsrc; try reflexivity.
    cbn. destruct (bool_decide (src ∈ CONTROLLABLE_SOURCES)) eqn:Hin;
      [|reflexivity].
    apply bool_decide_eq_true in Hin. destruct Hnot. by exists src.
  - intros Hon (src & Hsrc & Hin) Hhash Hunmapped.
    rewrite (state_controllable self src Hon Hsrc Hin).
    destruct (get_attribute_value _ Capability.media_playback _)
      as [|b|z|f|p|l] eqn:Hp; try reflexivity.
    + change (py_dict_find VALUE_TO_STATE (VStr p))
        with (Ok (VALUE_TO_STATE !! p)).
      by rewrite (Hunmapped p).
    + by destruct (Hhash l).
Qed.

Lemma state_three_steps_witness :
  let self :=
    sample_player (VStr "on") (VStr "wifi") (VStr "paused") VNone ∅ in
  get_attribute_value (_device self) Capability.switch Attribute.SWITCH
  ≠ VStr "off"
  ∧ state self = Ok MediaPlayerState.PAUSED
  ∧ MediaPlayerState.PAUSED
    ∈ [ MediaPlayerState.BUFFERING; MediaPlayerState.PAUSED;
        MediaPlayerState.PLAYING; MediaPlayerState.IDLE;
        MediaPlayerState.ON; MediaPlayerState.OFF ].
Proof.
  cbv zeta. split; [discriminate|].
  refine (proj1 (proj2
    (state_three_steps
       (sample_player (VStr "on") (VStr "wifi") (VStr "paused") VNone ∅)
       _)) _ _ "paused" MediaPlayerState.PAUSED _ _).
  - discriminate.
  - reflexivity.
  - exists "wifi". split; [reflexivity|].
    apply list_elem_of_In. simpl. tauto.
  - reflexivity.
  - reflexivity.
Defined.

(** ** Media title *)

(** C7. Given the derived state, [media_title] hands back the value of
    the title attribute when the state is PLAYING or PAUSED and the
    attribute is in the snapshot; in every other case (any other state,
    or no title attribute) it returns None; so a title is returned only
    when the state is PLAYING or PAUSED and the attribute exists. *)
Theorem media_title_exact (self : SmartThingsMediaPlayer)
    (st : MediaPlayerState.t) :
  state self = Ok st →
  let title := status_attributes (_device self) !! "trackDescription" in
  let playing_or_paused :=
    st = MediaPlayerState.PLAYING ∨ st = MediaPlayerState.PAUSED in
  (playing_or_paused → ∀ value, title = Some value →
     media_title self = Ok value)
  ∧ (¬ playing_or_paused ∨ title = None → media_title self = Ok VNone)
  ∧ (∀ value, media_title self = Ok value → value ≠ VNone →
     playing_or_paused ∧ title = Some value).
Proof.
  intros Hst. cbv zeta. unfold media_title. rewrite Hst. cbn.
  destruct (status_attributes (_device self) !! "trackDescription")
    as [value|] eqn:Htitle.
  - rewrite (bool_decide_eq_true_2 (is_Some (Some value))) by eauto.
    rewrite andb_true_r. case_bool_decide as Hin.
    + assert (Hpp : st = MediaPlayerState.PLAYING
                    ∨ st = MediaPlayerState.PAUSED).
      { apply list_elem_of_In in Hin. simpl in Hin. intuition. }
      split; [|split].
      * intros _ value' [= <-]. reflexivity.
      * intros [Hnot|[=]]. by destruct Hnot.
      * intros value' [= <-] _. done.
    + assert (Hnpp : ¬ (st = MediaPlayerState.PLAYING
                        ∨ st = MediaPlayerState.PAUSED)).
      { intros Hpp. apply Hin. apply list_elem_of_In. simpl. intuition. }
      split; [|split].
      * intros Hpp. by destruct Hnpp.
      * done.
      * intros value' [= <-] Hne. by destruct Hne.
  - rewrite (bool_decide_eq_false_2 (is_Some None))
      by (intros [? [=]]).
    rewrite andb_false_r. split; [|split].
    + intros _ value [=].
    + done.
    + intros value' [= <-] Hne. by destruct Hne.
Qed.

Lemma media_title_exact_witness :
  let self :=
    sample_player (VBool true) (VStr "bluetooth") (VStr "paused") VNone
      {["trackDescription" := VStr "Song"]} in
  state self = Ok MediaPlayerState.PAUSED
  ∧ media_title self = Ok (VStr "Song").
Proof.
  cbv zeta. split; [reflexivity|].
  refine (proj1
    (media_title_exact
       (sample_player (VBool true) (VStr "bluetooth") (VStr "paused") VNone
          {["trackDescription" := VStr "Song"]})
       MediaPlayerState.PAUSED _) _ (VStr "Song") _).
  - reflexivity.
  - by right.
  - reflexivity.
Defined.

Example media_title_when_on :
  media_title
    (sample_player (VBool true) (VStr "hdmi") (VStr "playing") VNone
       {["trackDescription" := VStr "Song"]}) = Ok VNone.
Proof. reflexivity. Qed.

Example media_title_without_attribute :
  media_title
    (sample_player (VBool true) (VStr "wifi") (VStr "playing") VNone ∅)
  = Ok VNone.
Proof. reflexivity. Qed.

(** ** Feature-gated accessors *)

(** C8. For each gated accessor: without its feature bit it returns
    None, and does so without reading the snapshot, hence without any
    error; with the bit it returns the attribute read from the snapshot,
    [volume_level] passing a present value through the conversion
    [float(v) / 100]. *)
Theorem accessor_gated (float_of_str : string → option float)
    (self : SmartThingsMediaPlayer) (a : Accessor) :
  let value :=
    get_attribute_value (_device self) (attribute_of a).1 (attribute_of a).2
  in
  (has_feature (supported_features self) (gate_of a) = false →
   read float_of_str self a = Ok VNone)
  ∧ (has_feature (supported_features self) (gate_of a) = true →
     read float_of_str self a
     = match a with
       | VolumeLevel =>
           if py_is_not_none value
           then f ← py_float float_of_str value; mret (VFloat (f / 100)%float)
           else Ok VNone
       | _ => Ok value
       end).
Proof.
  cbv zeta. split; intros Hgate; destruct a; cbn in *;
    unfold is_volume_muted, volume_level, source, source_list, shuffle,
      repeat; by rewrite Hgate.
Qed.

(** ** Volume *)

(** [int(x)] truncates: for a finite [x = ± m * 2^e] it is [± k] with
    [k <= m * 2^e < k + 1] (written without fractions). *)
Lemma py_int_of_float_truncates (x : float) (s : bool) (m : positive)
    (e : Z) :
  Prim2SF x = S754_finite s m e →
  ∃ k, py_int_of_float x = Ok (if s then - k else k)
       ∧ 0 ≤ k
       ∧ k * 2 ^ Z.max 0 (- e) ≤ Z.pos m * 2 ^ Z.max 0 e
         < (k + 1) * 2 ^ Z.max 0 (- e).
Proof.
  intros Hx. unfold py_int_of_float. rewrite Hx.
  exists (Z.shiftl (Z.pos m) e). split; [done|].
  destruct (Z.le_gt_cases 0 e) as [He|He].
  - rewrite Z.shiftl_mul_pow2 by done.
    rewrite (Z.max_r 0 e), (Z.max_l 0 (- e)) by lia.
    change (2 ^ 0) with 1. nia.
  - rewrite Z.shiftl_div_pow2 by lia.
    rewrite (Z.max_l 0 e), (Z.max_r 0 (- e)) by lia.
    change (2 ^ 0) with 1.
    assert (Hpow : 0 < 2 ^ (- e)) by (apply Z.pow_pos_nonneg; lia).
    pose proof (Z.div_pos (Z.pos m) (2 ^ (- e)) ltac:(lia) Hpow).
    pose proof (Z.mul_div_le (Z.pos m) (2 ^ (- e)) Hpow).
    pose proof (Z.mul_succ_div_gt (Z.pos m) (2 ^ (- e)) Hpow).
    lia.
Qed.

(** *** Binary64 multiplication by 100 on the unit interval *)

Lemma digits2_pos_bounds (p : positive) :
  2 ^ (Z.pos (digits2_pos p) - 1) ≤ Z.pos p < 2 ^ Z.pos (digits2_pos p).
Proof.
  induction p as [p IH|p IH|]; simpl digits2_pos;
    rewrite ?Pos2Z.inj_succ.
  - replace (Z.succ (Z.pos (digits2_pos p)) - 1)
      with (Z.succ (Z.pos (digits2_pos p) - 1)) by lia.
    rewrite !Z.pow_succ_r by lia. lia.
  - replace (Z.succ (Z.pos (digits2_pos p)) - 1)
      with (Z.succ (Z.pos (digits2_pos p) - 1)) by lia.
    rewrite !Z.pow_succ_r by lia. lia.
  - simpl. lia.
Qed.

Lemma shr_1_halves (mrs : shr_record) :
  0 ≤ shr_m mrs → shr_m (shr_1 mrs) = shr_m mrs / 2.
Proof.
  destruct mrs as [m r s]. simpl shr_m at 1 3.
  destruct m as [|[p|p|]|p]; intros Hm; cbn [shr_1 shr_m]; try lia.
  - reflexivity.
  - apply Z.div_unique with 1; lia.
  - apply Z.div_unique with 0; lia.
  - reflexivity.
Qed.

Lemma iter_shr_1 (p : positive) (mrs : shr_record) :
  0 ≤ shr_m mrs →
  shr_m (SpecFloat.iter_pos shr_1 p mrs) = shr_m mrs / 2 ^ Z.pos p.
Proof.
  revert mrs. induction p as [p IH|p IH|]; intros mrs Hm;
    simpl SpecFloat.iter_pos.
  - assert (H1 : 0 ≤ shr_m (shr_1 mrs)).
    { rewrite shr_1_halves by done. apply Z.div_pos; lia. }
    assert (H2 : 0 ≤ shr_m (SpecFloat.iter_pos shr_1 p (shr_1 mrs))).
    { rewrite IH by done. apply Z.div_pos; [done|].
      apply Z.pow_pos_nonneg; lia. }
    rewrite IH, IH, shr_1_halves by done.
    rewrite !Z.div_div by (try apply Z.pow_pos_nonneg; lia).
    f_equal. change 2 with (2 ^ 1) at 1.
    rewrite <- !Z.pow_add_r by lia. f_equal. lia.
  - assert (H2 : 0 ≤ shr_m (SpecFloat.iter_pos shr_1 p mrs)).
    { rewrite IH by done. apply Z.div_pos; [done|].
      apply Z.pow_pos_nonneg; lia. }
    rewrite IH, IH by done.
    rewrite !Z.div_div by (try apply Z.pow_pos_nonneg; lia).
    f_equal. rewrite <- !Z.pow_add_r by lia. f_equal. lia.
  - rewrite shr_1_halves by done. reflexivity.
Qed.

(** What [shr_fexp] does to a non-negative mantissa: a right shift by
    [t] bits, the exponent moving up by [t]. *)
Lemma shr_fexp_nonneg (m e : Z) (l : location) :
  0 ≤ m →
  let t := Z.max 0 (fexp prec emax (Zdigits2 m + e) - e) in
  shr_m (shr_fexp prec emax m e l).1 = m / 2 ^ t
  ∧ (shr_fexp prec emax m e l).2 = e + t.
Proof.
  intros Hm t. subst t. unfold shr_fexp, shr.
  assert (Hrec : shr_m (shr_record_of_loc m l) = m)
    by (by destruct l as [|[]]).
  destruct (fexp prec emax (Zdigits2 m + e) - e) as [|p|p] eqn:Ht;
    cbn [fst snd].
  - rewrite Hrec. change (2 ^ Z.max 0 0) with 1.
    rewrite Z.div_1_r. split; [done|lia].
  - rewrite iter_shr_1, Hrec by (by rewrite Hrec).
    rewrite Z.max_r by lia. done.
  - rewrite Hrec, Z.max_l by lia. change (2 ^ 0) with 1.
    rewrite Z.div_1_r. split; [done|lia].
Qed.

Lemma round_nearest_even_bounds (mx : Z) (lx : location) :
  mx ≤ round_nearest_even mx lx ≤ mx + 1.
Proof.
  unfold round_nearest_even.
  destruct lx as [|[]]; try destruct (Z.even mx); lia.
Qed.

Lemma Zdigits2_le (m k : Z) :
  0 ≤ k → 0 ≤ m ≤ 2 ^ k → Zdigits2 m ≤ k + 1.
Proof.
  intros Hk [Hm Hle]. destruct m as [|p|p]; simpl Zdigits2; try lia.
  pose proof (digits2_pos_bounds p) as [Hlow _].
  assert (Hlt : 2 ^ (Z.pos (digits2_pos p) - 1) < 2 ^ (k + 1)).
  { eapply Z.le_lt_trans; [exact Hlow|].
    eapply Z.le_lt_trans; [exact Hle|]. apply Z.pow_lt_mono_r; lia. }
  apply Z.pow_lt_mono_r_iff in Hlt; lia.
Qed.

(** Rounding a positive product [mx * 2^(-K)] that is at most 100:
    the result is zero or a finite positive number whose integer part
    is at most 100. *)
Lemma binary_round_aux_percent (mx K : Z) :
  98 ≤ K → 0 < mx ≤ 100 * 2 ^ K →
  match binary_round_aux prec emax false mx (- K) loc_Exact with
  | S754_zero _ => True
  | S754_finite s m e => s = false ∧ 0 ≤ Z.shiftl (Z.pos m) e ≤ 100
  | _ => False
  end.
Proof.
  intros HK [Hpos Hle]. unfold binary_round_aux.
  pose proof (shr_fexp_nonneg mx (- K) loc_Exact ltac:(lia)) as [Hq1 He1].
  cbv zeta in Hq1, He1.
  destruct (shr_fexp prec emax mx (- K) loc_Exact) as [mrs' e'] eqn:E1.
  cbn [fst snd] in Hq1, He1.
  set (t1 := Z.max 0 (fexp prec emax (Zdigits2 mx + - K) - - K)) in *.
  assert (H7 : 100 * 2 ^ K ≤ 2 ^ (K + 7)).
  { rewrite Z.pow_add_r by lia. change (2 ^ 7) with 128.
    pose proof (Z.pow_pos_nonneg 2 K ltac:(lia) ltac:(lia)). lia. }
  pose proof (Zdigits2_le mx (K + 7) ltac:(lia) ltac:(lia)) as Hd.
  assert (Ht1 : 0 ≤ t1 < K).
  { subst t1. unfold fexp, SpecFloat.emin, prec, emax. lia. }
  set (P := 2 ^ (K - t1)).
  assert (HP : 2 ≤ P).
  { subst P. change 2 with (2 ^ 1) at 1. apply Z.pow_le_mono_r; lia. }
  assert (HK2 : 2 ^ K = 2 ^ t1 * P).
  { subst P. rewrite <- Z.pow_add_r by lia. f_equal. lia. }
  assert (Hpt1 : 0 < 2 ^ t1) by (apply Z.pow_pos_nonneg; lia).
  assert (Hq1le : 0 ≤ shr_m mrs' ≤ 100 * P).
  { rewrite Hq1. split; [apply Z.div_pos; lia|].
    apply Z.div_le_upper_bound; [lia|]. rewrite HK2 in Hle. lia. }
  set (m2 := round_nearest_even (shr_m mrs') (loc_of_shr_record mrs')).
  pose proof (round_nearest_even_bounds (shr_m mrs')
                (loc_of_shr_record mrs')) as Hm2.
  fold m2 in Hm2.
  pose proof (shr_fexp_nonneg m2 e' loc_Exact ltac:(lia)) as [Hq2 He2].
  cbv zeta in Hq2, He2.
  destruct (shr_fexp prec emax m2 e' loc_Exact) as [mrs'' e''] eqn:E2.
  cbn [fst snd] in Hq2, He2.
  set (t2 := Z.max 0 (fexp prec emax (Zdigits2 m2 + e') - e')) in *.
  assert (H7' : 100 * P + 1 ≤ 2 ^ (K - t1 + 7)).
  { rewrite Z.pow_add_r by lia. change (2 ^ 7) with 128. fold P. lia. }
  pose proof (Zdigits2_le m2 (K - t1 + 7) ltac:(lia) ltac:(lia)) as Hd2.
  assert (Ht2 : 0 ≤ t2 ∧ e' + t2 < 0).
  { subst t2. unfold fexp, SpecFloat.emin, prec, emax. lia. }
  assert (Hpt2 : 0 < 2 ^ t2) by (apply Z.pow_pos_nonneg; lia).
  assert (Hm'' : 0 ≤ shr_m mrs'') by (rewrite Hq2; apply Z.div_pos; lia).
  destruct (shr_m mrs'') as [|m|m] eqn:Em; [done| |lia].
  replace (e'' <=? emax - prec) with true
    by (symmetry; apply Z.leb_le; unfold emax, prec; lia).
  split; [done|].
  rewrite Z.shiftl_div_pow2 by lia. rewrite Hq2.
  rewrite Z.div_div by (try apply Z.pow_pos_nonneg; lia).
  rewrite <- Z.pow_add_r by lia.
  replace (t2 + - e'') with (K - t1) by lia. fold P.
  split; [apply Z.div_pos; lia|].
  apply Z.lt_succ_r. apply Z.div_lt_upper_bound; lia.
Qed.

Lemma compare_cont_le (m b : positive) :
  match Pos.compare_cont Eq m b with Gt => false | _ => true end = true →
  Z.pos m ≤ Z.pos b.
Proof. intros H. apply Z.leb_le. exact H. Qed.

(** A floating-point number between 0 and 1 is [m * 2^e] with
    [m ≤ 2^(-e)] and [e ≤ -52]. *)
Lemma unit_interval_finite (s : bool) (m : positive) (e : Z) :
  valid_binary (S754_finite s m e) = true →
  SFleb (S754_zero false) (S754_finite s m e) = true →
  SFleb (S754_finite s m e) (S754_finite false 4503599627370496 (-52))
  = true →
  s = false ∧ e ≤ -52 ∧ Z.pos m ≤ 2 ^ (- e).
Proof.
  intros Hvalid H0 H1. destruct s; [discriminate|].
  split; [done|].
  unfold SFleb, SFcompare in H1.
  cbn [valid_binary] in Hvalid. unfold bounded in Hvalid.
  apply andb_true_iff in Hvalid as [Hcanon _].
  apply Z.eqb_eq in Hcanon.
  pose proof (digits2_pos_bounds m) as [_ Hup].
  assert (Hd : Z.pos (digits2_pos m) ≤ 53).
  { revert Hcanon. unfold fexp, SpecFloat.emin, prec, emax. lia. }
  assert (Hm : Z.pos m < 2 ^ 53).
  { eapply Z.lt_le_trans; [exact Hup|]. apply Z.pow_le_mono_r; lia. }
  destruct (e ?= -52) eqn:Ec.
  - apply Z.compare_eq in Ec. subst e. split; [lia|].
    change (2 ^ (- -52)) with (Z.pos 4503599627370496).
    by apply compare_cont_le.
  - rewrite Z.compare_lt_iff in Ec. split; [lia|].
    assert (2 ^ 53 ≤ 2 ^ (- e)) by (apply Z.pow_le_mono_r; lia). lia.
  - discriminate.
Qed.

(** Every volume between 0 and 1 converts to a percentage between 0
    and 100, and the conversion does not fail. *)
Lemma unit_volume_percent (volume : float) :
  (0 <=? volume)%float = true → (volume <=? 1)%float = true →
  ∃ n, py_int_of_float (volume * 100)%float = Ok n ∧ 0 ≤ n ≤ 100.
Proof.
  intros H0 H1. rewrite FloatAxioms.leb_spec in H0, H1.
  pose proof (Prim2SF_valid volume) as Hvalid.
  unfold py_int_of_float. rewrite FloatAxioms.mul_spec.
  assert (E100 : Prim2SF 100
                 = S754_finite false 7036874417766400 (-46))
    by (vm_compute; reflexivity).
  assert (E1 : Prim2SF 1 = S754_finite false 4503599627370496 (-52))
    by (vm_compute; reflexivity).
  assert (E0 : Prim2SF 0 = S754_zero false) by (vm_compute; reflexivity).
  rewrite E100. rewrite E1 in H1. rewrite E0 in H0.
  destruct (Prim2SF volume) as [s|s| |s m e].
  - exists 0. split; [done|lia].
  - destruct s; discriminate.
  - discriminate.
  - destruct (unit_interval_finite s m e Hvalid H0 H1) as (-> & He & Hm).
    unfold SF64mul, SFmul. cbn [xorb].
    replace (e + -46) with (- (46 - e)) by lia.
    assert (Hle : Z.pos (m * 7036874417766400) ≤ 100 * 2 ^ (46 - e)).
    { rewrite Pos2Z.inj_mul.
      replace (46 - e) with (46 + - e) by lia.
      rewrite Z.pow_add_r by lia.
      change (2 ^ 46) with 70368744177664. lia. }
    pose proof (binary_round_aux_percent (Z.pos (m * 7036874417766400))
                  (46 - e) ltac:(lia) ltac:(lia)) as Hround.
    destruct (binary_round_aux prec emax false _ _ loc_Exact)
      as [s'|s'| |s' m' e']; try done.
    + exists 0. split; [done|lia].
    + destruct Hround as [-> Hn]. eexists. split; [done|exact Hn].
Qed.

Example volume_arguments :
  py_int_of_float (0 * 100)%float = Ok 0
  ∧ py_int_of_float (0.5 * 100)%float = Ok 50
  ∧ py_int_of_float (1 * 100)%float = Ok 100.
Proof. repeat split; reflexivity. Qed.

(** Reading 29 back and sending it again arrives as 28. *)
Example volume_29_comes_back_28 :
  volume_level no_parse
    (sample_player (VBool true) VNone VNone (VInt 29) ∅)
  = Ok (VFloat 0x1.28f5c28f5c28fp-2)
  ∧ py_int_of_float (0x1.28f5c28f5c28fp-2 * 100)%float = Ok 28
  ∧ py_round (0x1.28f5c28f5c28fp-2 * 100)%float = Ok 29.
Proof. repeat split; reflexivity. Qed.

(** C10. With the VOLUME_SET bit present and no volume value in the
    snapshot, [volume_level] returns None and leaves the conversion
    alone (which would raise on None); the conversion is applied to a
    present value only. *)
Theorem volume_level_absent_value (float_of_str : string → option float)
    (self : SmartThingsMediaPlayer) :
  has_feature (supported_features self) MediaPlayerEntityFeature.VOLUME_SET
  = true →
  let volume :=
    get_attribute_value (_device self) Capability.audio_volume
      Attribute.VOLUME in
  (volume = VNone → volume_level float_of_str self = Ok VNone)
  ∧ (volume ≠ VNone →
     volume_level float_of_str self
     = f ← py_float float_of_str volume; mret (VFloat (f / 100)%float))
  ∧ py_float float_of_str VNone = Raise TypeError.
Proof.
  intros Hgate. cbv zeta. unfold volume_level. rewrite Hgate.
  split; [|split].
  - by intros ->.
  - intros Hpresent.
    by destruct (get_attribute_value _ Capability.audio_volume _).
  - reflexivity.
Qed.

Lemma volume_level_absent_value_witness :
  has_feature
    (supported_features (sample_player (VBool true) VNone VNone VNone ∅))
    MediaPlayerEntityFeature.VOLUME_SET = true
  ∧ volume_level no_parse (sample_player (VBool true) VNone VNone VNone ∅)
    = Ok VNone.
Proof.
  split; [reflexivity|].
  refine (proj1
    (volume_level_absent_value no_parse
       (sample_player (VBool true) VNone VNone VNone ∅) _) _);
    reflexivity.
Defined.

(** Every percentage from 0 to 100 is a binary64 number exactly, and a
    hundredth of it lies between 0.0 and 1.0. *)
Lemma percent_to_float (r : Z) :
  0 ≤ r ≤ 100 →
  py_float_of_int r = Ok (of_uint63 (of_Z r))
  ∧ py_int_of_float (of_uint63 (of_Z r)) = Ok r
  ∧ (0 <=? of_uint63 (of_Z r) / 100)%float = true
  ∧ (of_uint63 (of_Z r) / 100 <=? 1)%float = true.
Proof.
  intros [Hlo Hhi]. rewrite <- (Z2Nat.id r) by lia.
  assert (Hn : (Z.to_nat r < 101)%nat) by lia.
  generalize dependent (Z.to_nat r). intros n Hn.
  do 101 (destruct n as [|n]; [vm_compute; repeat split; reflexivity|]).
  lia.
Qed.

(** C3, as stated, fails: the argument sent is [int(v * 100)], which
    drops the fraction where [round] would go to the nearest integer.
    At v = 0.796875 the product is 79.6875: 79 is sent, the rounding is
    80. *)
Lemma volume_conversion_counterexample :
  (0 <=? 0.796875)%float = true
  ∧ (0.796875 <=? 1)%float = true
  ∧ async_set_volume_level accepting
      (sample_player (VBool true) VNone VNone VNone ∅) 0.796875%float []
    = (Ok tt,
       [(Capability.audio_volume, Command.SET_VOLUME, Some (VInt 79))])
  ∧ py_round (0.796875 * 100)%float = Ok 80.
Proof. repeat split; reflexivity. Qed.

(** C3, amended. For every local volume v between 0.0 and 1.0,
    [async_set_volume_level] sends the one argument [int(v * 100)], the
    product cut off toward zero, an integer from 0 to 100; for every
    remote integer r from 0 to 100 in the snapshot, [volume_level]
    returns [float(r) / 100], between 0.0 and 1.0.  For v = 0.0, 0.5,
    1.0 the argument is 0, 50, 100 (where cutting off and rounding
    agree), and r = 0, 50, 100 read back as 0.0, 0.5, 1.0. *)
Theorem volume_conversion (float_of_str : string → option float)
    (remote : list Call → Call → result unit)
    (self : SmartThingsMediaPlayer) :
  (∀ volume log,
     (0 <=? volume)%float = true → (volume <=? 1)%float = true →
     ∃ n, py_int_of_float (volume * 100)%float = Ok n
          ∧ 0 ≤ n ≤ 100
          ∧ async_set_volume_level remote self volume log
            = (remote log
                 (Capability.audio_volume, Command.SET_VOLUME,
                  Some (VInt n)),
               log ++ [(Capability.audio_volume, Command.SET_VOLUME,
                        Some (VInt n))]))
  ∧ (∀ x s m e, Prim2SF x = S754_finite s m e →
     ∃ k, py_int_of_float x = Ok (if s then - k else k)
          ∧ 0 ≤ k
          ∧ k * 2 ^ Z.max 0 (- e) ≤ Z.pos m * 2 ^ Z.max 0 e
            < (k + 1) * 2 ^ Z.max 0 (- e))
  ∧ (∀ r, 0 ≤ r ≤ 100 →
     has_feature (supported_features self)
       MediaPlayerEntityFeature.VOLUME_SET = true →
     get_attribute_value (_device self) Capability.audio_volume
       Attribute.VOLUME = VInt r →
     volume_level float_of_str self
     = Ok (VFloat (of_uint63 (of_Z r) / 100)%float)
     ∧ (0 <=? of_uint63 (of_Z r) / 100)%float = true
     ∧ (of_uint63 (of_Z r) / 100 <=? 1)%float = true)
  ∧ (py_int_of_float (0 * 100)%float = Ok 0
     ∧ py_int_of_float (0.5 * 100)%float = Ok 50
     ∧ py_int_of_float (1 * 100)%float = Ok 100
     ∧ py_round (0 * 100)%float = Ok 0
     ∧ py_round (0.5 * 100)%float = Ok 50
     ∧ py_round (1 * 100)%float = Ok 100)
  ∧ ((of_uint63 (of_Z 0) / 100 = 0)%float
     ∧ (of_uint63 (of_Z 50) / 100 = 0.5)%float
     ∧ (of_uint63 (of_Z 100) / 100 = 1)%float).
Proof.
  split; [|split; [|split; [|split]]].
  - intros volume log H0 H1.
    destruct (unit_volume_percent volume H0 H1) as (n & Hn & Hrange).
    exists n. split; [done|]. split; [done|].
    unfold async_set_volume_level, exec_bind, exec_lift. by rewrite Hn.
  - apply py_int_of_float_truncates.
  - intros r Hr Hgate Hvolume.
    destruct (percent_to_float r Hr) as (Hfloat & _ & Hlo & Hhi).
    split; [|done]. unfold volume_level. rewrite Hgate, Hvolume.
    cbn [py_is_not_none py_float]. by rewrite Hfloat.
  - repeat split; reflexivity.
  - repeat split; reflexivity.
Qed.

(** ** Command dispatch *)

Example set_volume_half :
  async_set_volume_level accepting
    (bare_player VNone VNone VNone VNone) 0.5%float []
  = (Ok tt, [(Capability.audio_volume, Command.SET_VOLUME, Some (VInt 50))]).
Proof. reflexivity. Qed.

(** Outside the host's contract the conversion itself can fail, and
    then nothing is sent. *)
Example set_volume_nan :
  async_set_volume_level accepting
    (bare_player VNone VNone VNone VNone) nan []
  = (Raise ValueError, []).
Proof. reflexivity. Qed.

(** A failure of the executor comes back unchanged, after the call was
    submitted. *)
Example turn_on_rejected :
  async_turn_on (fun _ _ => Raise (RemoteError 422))
    (bare_player VNone VNone VNone VNone) []
  = (Raise (RemoteError 422), [(Capability.switch, Command.ON, None)]).
Proof. reflexivity. Qed.

(** C9. The code where the claim fails: [async_set_repeat] names the
    command [Command.SET_PLAYBACK_REPEAT], which the vendor's
    enumeration does not have; the call raises [AttributeError] locally
    and no triple reaches the executor, where the claim says that set
    repeat does not raise and forwards exactly one triple.  The
    sibling [async_set_shuffle] forwards its triple as claimed. *)
Theorem set_repeat_raises_locally
    (remote : list Call → Call → result unit)
    (self : SmartThingsMediaPlayer) (repeat : RepeatMode.t)
    (log : list Call) :
  invoke remote self (SetRepeat repeat) log = (Raise AttributeError, log)
  ∧ async_set_shuffle remote self true log
    = (remote log
         (Capability.media_playback_shuffle, Command.SET_PLAYBACK_SHUFFLE,
          Some (VBool true)),
       log ++ [(Capability.media_playback_shuffle,
                Command.SET_PLAYBACK_SHUFFLE, Some (VBool true))]).
Proof. split; reflexivity. Qed.

(** X17. Every action other than set repeat, on every player whatever
    its mask (the bit of the action may be absent), submits exactly one
    (capability, command, argument) triple and returns the executor's
    verdict on it, adding no error of its own; the mask is not
    consulted: any two players behave alike. *)
Theorem dispatch_forwards_one_call
    (remote : list Call → Call → result unit)
    (self : SmartThingsMediaPlayer) (a : Action) (log : list Call) :
  well_formed a → (∀ repeat, a ≠ SetRepeat repeat) →
  (∃ command argument,
     invoke remote self a log
     = (remote log (capability_of a, command, argument),
        log ++ [(capability_of a, command, argument)]))
  ∧ (∀ self', invoke remote self' a log = invoke remote self a log).
Proof.
  intros Hwf Hrepeat. split; [|by destruct a].
  destruct a as [| |[]|volume| | | | | |src|sh|r];
    try (by eexists _, _).
  - destruct Hwf as [H0 H1].
    destruct (unit_volume_percent volume H0 H1) as (n & Hn & _).
    exists Command.SET_VOLUME, (Some (VInt n)).
    cbn [invoke capability_of].
    unfold async_set_volume_level, exec_bind, exec_lift. by rewrite Hn.
  - by destruct (Hrepeat r).
Qed.

Lemma dispatch_forwards_one_call_witness :
  well_formed (SetVolumeLevel 0.5)
  ∧ has_feature
      (supported_features (bare_player VNone VNone VNone VNone))
      MediaPlayerEntityFeature.VOLUME_SET = false
  ∧ ∃ command argument,
      invoke accepting (bare_player VNone VNone VNone VNone)
        (SetVolumeLevel 0.5) []
      = (accepting [] (Capability.audio_volume, command, argument),
         [] ++ [(Capability.audio_volume, command, argument)]).
Proof.
  split; [by split|]. split; [reflexivity|].
  refine (proj1
    (dispatch_forwards_one_call accepting
       (bare_player VNone VNone VNone VNone) (SetVolumeLevel 0.5) [] _ _)).
  - by split.
  - discriminate.
Defined.

(** * Further properties of the code *)

(** ** Platform setup *)

Lemma get_capabilities_status_main (device : Device) :
  (qualifies device
   ∧ get_capabilities (status_main device) = Some supported)
  ∨ ((∀ c, c ∈ media_player_capabilities → c ∉ reported device)
     ∧ get_capabilities (status_main device) = None).
Proof.
  unfold get_capabilities, status_main.
  destruct (existsb _ media_player_capabilities) eqn:E.
  - left. split; [|done].
    apply existsb_exists in E as (c & Hc & Hin).
    apply bool_decide_eq_true in Hin. apply list_elem_of_In in Hc.
    exists c. split; [done|]. by apply elem_of_elements.
  - right. split; [|done]. intros c Hc Hin.
    assert (Ht : existsb
                   (λ capability,
                      bool_decide (capability ∈ elements (reported device)))
                   media_player_capabilities = true); [|congruence].
    apply existsb_exists. exists c. split.
    + by apply list_elem_of_In.
    + apply bool_decide_eq_true. by apply elem_of_elements.
Qed.

Lemma primary_in_supported (c : string) :
  c ∈ media_player_capabilities → c ∈ supported.
Proof.
  intros Hc. apply list_elem_of_In in Hc. apply list_elem_of_In.
  simpl in *. tauto.
Qed.

(** Once [get_capabilities] answers, the [any] over its answer is
    true: a qualifying device is always kept. *)
Lemma setup_filter_keeps (device : Device) :
  qualifies device →
  existsb (λ capability, bool_decide (capability ∈ status_main device))
    supported = true.
Proof.
  intros (c & Hc & Hin). apply existsb_exists. exists c. split.
  - apply list_elem_of_In. by apply primary_in_supported.
  - apply bool_decide_eq_true. unfold status_main.
    by apply elem_of_elements.
Qed.

(** X1. When every device reports a primary capability, setup adds one
    player per device, in order, each built by [__init__]. *)
Theorem async_setup_entry_all_qualify (devices : list Device) :
  Forall qualifies devices →
  async_setup_entry devices = Ok (__init__ <$> devices).
Proof.
  induction 1 as [|device rest Hq _ IH]; [done|].
  cbn [async_setup_entry].
  destruct (get_capabilities_status_main device) as [[_ ->]|[Hno _]].
  - cbn [py_iter mbind result_bind]. rewrite IH.
    by rewrite (setup_filter_keeps device Hq).
  - destruct Hq as (c & Hc & Hin). by destruct (Hno c Hc).
Qed.

Lemma async_setup_entry_all_qualify_witness :
  async_setup_entry
    [sample_device (VBool true) VNone VNone VNone ∅;
     sample_device (VBool false) VNone VNone VNone ∅]
  = Ok (__init__ <$>
          [sample_device (VBool true) VNone VNone VNone ∅;
           sample_device (VBool false) VNone VNone VNone ∅]).
Proof.
  apply (async_setup_entry_all_qualify
           [sample_device (VBool true) VNone VNone VNone ∅;
            sample_device (VBool false) VNone VNone VNone ∅]).
  repeat constructor;
    (exists Capability.audio_mute; split;
     [apply list_elem_of_In; simpl; tauto
     |apply elem_of_list_to_set, list_elem_of_In; simpl; tauto]).
Defined.

(** X2. When some device reports none of the primary capabilities,
    [get_capabilities] answers None, the comprehension iterates over it
    and setup raises [TypeError]: no player is added at all, not even
    for the qualifying devices. *)
Theorem async_setup_entry_unqualified (devices : list Device) :
  Exists (λ device, ∀ c, c ∈ media_player_capabilities →
                         c ∉ reported device) devices →
  async_setup_entry devices = Raise TypeError.
Proof.
  induction 1 as [device rest Hno|device rest _ IH];
    cbn [async_setup_entry].
  - destruct (get_capabilities_status_main device)
      as [[(c & Hc & Hin) _]|[_ ->]]; [|done].
    by destruct (Hno c Hc).
  - destruct (get_capabilities_status_main device) as [[_ ->]|[_ ->]];
      [|done].
    cbn [py_iter mbind result_bind]. by rewrite IH.
Qed.

Lemma async_setup_entry_unqualified_witness :
  async_setup_entry
    [sample_device (VBool true) VNone VNone VNone ∅; switch_only_device]
  = Raise TypeError.
Proof.
  apply (async_setup_entry_unqualified
           [sample_device (VBool true) VNone VNone VNone ∅;
            switch_only_device]).
  apply Exists_cons_tl, Exists_cons_hd. intros c Hc Hin.
  cbn [reported switch_only_device] in Hin.
  apply elem_of_singleton in Hin. subst c.
  apply list_elem_of_In in Hc. simpl in Hc.
  repeat (destruct Hc as [Hc|Hc]; [discriminate Hc|]). exact Hc.
Defined.

(** ** Feature mask *)

Lemma supports_capability_union (S S' : gset string) (c : string) :
  supports_capability (S ∪ S') c
  = supports_capability S c || supports_capability S' c.
Proof.
  unfold supports_capability. rewrite <- bool_decide_or.
  apply bool_decide_ext, elem_of_union.
Qed.

(** The bit of each capability-dependent feature, read off the mask. *)
Lemma determine_features_testbits (S : gset string) :
  Z.testbit (_determine_features S) 2
  = supports_capability S Capability.audio_volume
  ∧ Z.testbit (_determine_features S) 3
    = supports_capability S Capability.audio_mute
  ∧ Z.testbit (_determine_features S) 7
    = supports_capability S Capability.switch
  ∧ Z.testbit (_determine_features S) 11
    = supports_capability S Capability.media_input_source
  ∧ Z.testbit (_determine_features S) 15
    = supports_capability S Capability.media_playback_shuffle
  ∧ Z.testbit (_determine_features S) 18
    = supports_capability S Capability.media_playback_repeat.
Proof.
  unfold _determine_features. case_supports; vm_compute; repeat split.
Qed.

(** The mask as the base bits and one part per capability. *)
Lemma determine_features_parts (S : gset string) :
  _determine_features S
  = Z.lor
      (Z.lor (Z.lor MediaPlayerEntityFeature.PLAY
                MediaPlayerEntityFeature.PAUSE)
         MediaPlayerEntityFeature.STOP)
      (Z.lor
         (if supports_capability S Capability.audio_volume
          then Z.lor MediaPlayerEntityFeature.VOLUME_SET
                 MediaPlayerEntityFeature.VOLUME_STEP
          else 0)
         (Z.lor
            (if supports_capability S Capability.audio_mute
             then MediaPlayerEntityFeature.VOLUME_MUTE else 0)
            (Z.lor
               (if supports_capability S Capability.switch
                then Z.lor MediaPlayerEntityFeature.TURN_ON
                       MediaPlayerEntityFeature.TURN_OFF
                else 0)
               (Z.lor
                  (if supports_capability S Capability.media_input_source
                   then MediaPlayerEntityFeature.SELECT_SOURCE else 0)
                  (Z.lor
                     (if supports_capability S
                           Capability.media_playback_shuffle
                      then MediaPlayerEntityFeature.SHUFFLE_SET else 0)
                     (if supports_capability S
                           Capability.media_playback_repeat
                      then MediaPlayerEntityFeature.REPEAT_SET
                      else 0)))))).
Proof. unfold _determine_features. case_supports; reflexivity. Qed.

Lemma if_orb_lor (a b : bool) (x : Z) :
  (if a || b then x else 0)
  = Z.lor (if a then x else 0) (if b then x else 0).
Proof.
  destruct a, b; cbn [orb];
    by rewrite ?Z.lor_diag, ?Z.lor_0_r, ?Z.lor_0_l.
Qed.

(** X3. The mask of a union of capability sets is the bitwise or of the
    masks: features are contributed capability by capability and never
    interfere. *)
Theorem determine_features_union (S S' : gset string) :
  _determine_features (S ∪ S')
  = Z.lor (_determine_features S) (_determine_features S').
Proof.
  rewrite !determine_features_parts, !supports_capability_union,
    !if_orb_lor.
  apply Z.bits_inj'. intros n _. rewrite !Z.lor_spec. btauto.
Qed.

(** X4. Two capability sets give the same mask exactly when they agree
    on volume, mute, switch, input-source, shuffle and repeat: the mask
    tells these six apart, and nothing else (media playback included)
    moves it. *)
Theorem determine_features_injective (S S' : gset string) :
  _determine_features S = _determine_features S'
  ↔ ∀ c, c ∈ [ Capability.audio_volume; Capability.audio_mute;
               Capability.switch; Capability.media_input_source;
               Capability.media_playback_shuffle;
               Capability.media_playback_repeat ] →
         (c ∈ S ↔ c ∈ S').
Proof.
  split.
  - intros Heq c Hc.
    destruct (determine_features_testbits S) as (V & M & W & I & H & R).
    destruct (determine_features_testbits S')
      as (V' & M' & W' & I' & H' & R').
    rewrite Heq in V, M, W, I, H, R.
    rewrite <- !supports_capability_true.
    apply list_elem_of_In in Hc. simpl in Hc.
    destruct Hc as [<-|[<-|[<-|[<-|[<-|[<-|[]]]]]]];
      match goal with
      | |- ?a = true ↔ ?b = true =>
          assert (E : a = b) by congruence; by rewrite E
      end.
  - intros Hagree.
    assert (Hsup : ∀ c,
              c ∈ [ Capability.audio_volume; Capability.audio_mute;
                    Capability.switch; Capability.media_input_source;
                    Capability.media_playback_shuffle;
                    Capability.media_playback_repeat ] →
              supports_capability S c = supports_capability S' c).
    { intros c Hc. specialize (Hagree c Hc).
      rewrite <- !supports_capability_true in Hagree.
      destruct (supports_capability S c), (supports_capability S' c);
        intuition congruence. }
    unfold _determine_features.
    rewrite !Hsup by (apply list_elem_of_In; simpl; tauto).
    reflexivity.
Qed.

(** ** Gates and capabilities *)

(** X5. On a player built by [__init__], the gate of every accessor is
    open exactly when the device reports the capability the accessor
    reads: an accessor never reads an attribute of a capability the
    device does not report, it answers None instead. *)
Theorem gate_matches_capability (float_of_str : string → option float)
    (device : Device) (a : Accessor) :
  (has_feature (supported_features (__init__ device)) (gate_of a) = true
   ↔ (attribute_of a).1 ∈ reported device)
  ∧ ((attribute_of a).1 ∉ reported device →
     read float_of_str (__init__ device) a = Ok VNone).
Proof.
  assert (Hgate : has_feature (supported_features (__init__ device))
                    (gate_of a)
                  = supports_capability (reported device)
                      (attribute_of a).1).
  { change (supported_features (__init__ device))
      with (_determine_features (reported device)).
    generalize (reported device) as S. intros S.
    unfold _determine_features.
    destruct a; cbn [gate_of attribute_of fst]; case_supports;
      reflexivity || congruence. }
  split.
  - rewrite Hgate. apply supports_capability_true.
  - intros Hno.
    assert (Hoff : has_feature (supported_features (__init__ device))
                     (gate_of a) = false).
    { rewrite Hgate. by apply bool_decide_eq_false. }
    destruct a; cbn [read gate_of] in *;
      unfold is_volume_muted, volume_level, source, source_list, shuffle,
        repeat; by rewrite Hoff.
Qed.

(** ** State *)

(** Without the SELECT_SOURCE bit the state is decided by the switch
    alone. *)
Lemma state_without_source (self : SmartThingsMediaPlayer) :
  has_feature (supported_features self)
    MediaPlayerEntityFeature.SELECT_SOURCE = false →
  state self
  = Ok (if py_truthy (switch_of self)
        then MediaPlayerState.ON else MediaPlayerState.OFF).
Proof.
  intros Hgate. unfold state, source, switch_of. rewrite Hgate.
  by destruct (py_truthy _).
Qed.

(** X6. A player built on a device that does not report the
    input-source capability is only ever ON or OFF, following the
    switch; its state never fails and it never shows a title, whatever
    the playback status and the title attribute are. *)
Theorem state_without_input_source (device : Device) :
  Capability.media_input_source ∉ reported device →
  state (__init__ device)
  = Ok (if py_truthy (switch_of (__init__ device))
        then MediaPlayerState.ON else MediaPlayerState.OFF)
  ∧ media_title (__init__ device) = Ok VNone.
Proof.
  intros Hno.
  assert (Hgate : has_feature (supported_features (__init__ device))
                    MediaPlayerEntityFeature.SELECT_SOURCE = false).
  { change (supported_features (__init__ device))
      with (_determine_features (reported device)).
    assert (Hb : supports_capability (reported device)
                   Capability.media_input_source = false)
      by (by apply bool_decide_eq_false_2).
    revert Hb. unfold _determine_features.
    case_supports; intros; reflexivity || congruence. }
  pose proof (state_without_source _ Hgate) as Hst. split; [done|].
  unfold media_title. rewrite Hst.
  by destruct (py_truthy _).
Qed.

Lemma state_without_input_source_witness :
  let device :=
    {| reported := {[Capability.switch; Capability.audio_volume]};
       get_attribute_value :=
         sample_reader (VBool true) (VStr "wifi") (VStr "playing") VNone;
       status_attributes := {["trackDescription" := VStr "Song"]} |} in
  state (__init__ device) = Ok MediaPlayerState.ON
  ∧ media_title (__init__ device) = Ok VNone.
Proof.
  cbv zeta.
  refine (state_without_input_source
    {| reported := {[Capability.switch; Capability.audio_volume]};
       get_attribute_value :=
         sample_reader (VBool true) (VStr "wifi") (VStr "playing") VNone;
       status_attributes := {["trackDescription" := VStr "Song"]} |} _).
  cbn [reported]. intros Hin.
  apply elem_of_union in Hin as [Hin|Hin];
    apply elem_of_singleton in Hin; discriminate Hin.
Defined.






(** ** Media title *)

(** X9. [media_title] fails exactly when [state] does, with the same
    error: the lookup of the title is guarded and never raises
    [KeyError]. *)
Theorem media_title_fails_with_state (self : SmartThingsMediaPlayer)
    (e : exn) :
  media_title self = Raise e ↔ state self = Raise e.
Proof.
  unfold media_title, mbind, result_bind.
  destruct (state self) as [st|e']; [|split; by intros [= ->]].
  destruct (status_attributes (_device self) !! "trackDescription")
    as [value|] eqn:Htitle.
  - destruct (_ && _); split; discriminate.
  - rewrite (bool_decide_eq_false_2 (is_Some None)) by (intros [? [=]]).
    rewrite andb_false_r. split; discriminate.
Qed.



(** ** Volume *)

(** X11. Setting the volume either submits exactly one SET_VOLUME call
    whose argument is an integer, or fails before anything is sent: a
    NaN volume raises [ValueError], an infinite one raises
    [OverflowError], and a failure leaves the submitted calls as they
    were: the executor is not called. *)
Theorem set_volume_outcomes (remote : list Call → Call → result unit)
    (self : SmartThingsMediaPlayer) (volume : float) (log : list Call) :
  ((∃ n, async_set_volume_level remote self volume log
         = (remote log
              (Capability.audio_volume, Command.SET_VOLUME,
               Some (VInt n)),
            log ++ [(Capability.audio_volume, Command.SET_VOLUME,
                     Some (VInt n))]))
   ∨ async_set_volume_level remote self volume log
     = (Raise ValueError, log)
   ∨ async_set_volume_level remote self volume log
     = (Raise OverflowError, log))
  ∧ (Prim2SF volume = S754_nan →
     async_set_volume_level remote self volume log
     = (Raise ValueError, log))
  ∧ (∀ s, Prim2SF volume = S754_infinity s →
     async_set_volume_level remote self volume log
     = (Raise OverflowError, log)).
Proof.
  unfold async_set_volume_level, exec_bind, exec_lift, py_int_of_float.
  split; [|split].
  - destruct (Prim2SF (volume * 100)) as [s|s| |s m e]; eauto.
  - intros Hnan. rewrite FloatAxioms.mul_spec, Hnan. reflexivity.
  - intros s Hinf. rewrite FloatAxioms.mul_spec, Hinf.
    assert (E100 : Prim2SF 100
                   = S754_finite false 7036874417766400 (-46))
      by (vm_compute; reflexivity).
    rewrite E100. reflexivity.
Qed.

(** A percentage read and multiplied back by 100 loses one unit at 29,
    57 and 58 and nowhere else. *)
Lemma percent_there_and_back (r : Z) :
  0 ≤ r ≤ 100 →
  py_int_of_float (of_uint63 (of_Z r) / 100 * 100)%float
  = Ok (if (r =? 29) || (r =? 57) || (r =? 58) then r - 1 else r).
Proof.
  intros [Hlo Hhi]. rewrite <- (Z2Nat.id r) by lia.
  assert (Hn : (Z.to_nat r < 101)%nat) by lia.
  generalize dependent (Z.to_nat r). intros n Hn.
  do 101 (destruct n as [|n]; [vm_compute; reflexivity|]).
  lia.
Qed.

(** X12. Reading the volume and setting it back: for a remote
    percentage r from 0 to 100, the level read, handed to
    [async_set_volume_level], is sent as r again, except for r = 29, 57
    and 58, which come back as r - 1. *)
Theorem volume_read_then_set (float_of_str : string → option float)
    (remote : list Call → Call → result unit)
    (self : SmartThingsMediaPlayer) (r : Z) (log : list Call) :
  0 ≤ r ≤ 100 →
  has_feature (supported_features self)
    MediaPlayerEntityFeature.VOLUME_SET = true →
  get_attribute_value (_device self) Capability.audio_volume
    Attribute.VOLUME = VInt r →
  ∃ level,
    volume_level float_of_str self = Ok (VFloat level)
    ∧ let back :=
        if (r =? 29) || (r =? 57) || (r =? 58) then r - 1 else r in
      async_set_volume_level remote self level log
      = (remote log
           (Capability.audio_volume, Command.SET_VOLUME,
            Some (VInt back)),
         log ++ [(Capability.audio_volume, Command.SET_VOLUME,
                  Some (VInt back))]).
Proof.
  intros Hr Hgate Hvolume.
  destruct (percent_to_float r Hr) as (Hfloat & _).
  exists (of_uint63 (of_Z r) / 100)%float. split.
  - unfold volume_level. rewrite Hgate, Hvolume.
    cbn [py_is_not_none py_float]. by rewrite Hfloat.
  - cbv zeta. unfold async_set_volume_level, exec_bind, exec_lift.
    by rewrite (percent_there_and_back r Hr).
Qed.

Lemma volume_read_then_set_witness :
  ∃ level,
    volume_level no_parse
      (sample_player (VBool true) VNone VNone (VInt 57) ∅)
    = Ok (VFloat level)
    ∧ async_set_volume_level accepting
        (sample_player (VBool true) VNone VNone (VInt 57) ∅) level []
      = (Ok tt,
         [(Capability.audio_volume, Command.SET_VOLUME, Some (VInt 56))]).
Proof.
  refine (volume_read_then_set no_parse accepting
            (sample_player (VBool true) VNone VNone (VInt 57) ∅) 57 []
            _ _ _); [lia|reflexivity|reflexivity].
Defined.

(** The levels of the percentages 0 to 100, compared pairwise. *)
Lemma levels_increasing_table :
  forallb
    (λ i, forallb
            (λ j, (of_uint63 (of_Z (Z.of_nat i)) / 100
                   <? of_uint63 (of_Z (Z.of_nat j)) / 100)%float)
            (seq (S i) (100 - i)))
    (seq 0 101) = true.
Proof. vm_compute. reflexivity. Qed.

(** X13. Reading is strictly increasing: of two remote percentages
    between 0 and 100, the larger one reads as the strictly larger
    level, so no two percentages read alike. *)
Theorem volume_level_increasing (float_of_str : string → option float)
    (self self' : SmartThingsMediaPlayer) (r r' : Z) :
  0 ≤ r → r < r' → r' ≤ 100 →
  has_feature (supported_features self)
    MediaPlayerEntityFeature.VOLUME_SET = true →
  has_feature (supported_features self')
    MediaPlayerEntityFeature.VOLUME_SET = true →
  get_attribute_value (_device self) Capability.audio_volume
    Attribute.VOLUME = VInt r →
  get_attribute_value (_device self') Capability.audio_volume
    Attribute.VOLUME = VInt r' →
  ∃ level level',
    volume_level float_of_str self = Ok (VFloat level)
    ∧ volume_level float_of_str self' = Ok (VFloat level')
    ∧ (level <? level')%float = true.
Proof.
  intros Hlo Hlt Hhi Hgate Hgate' Hvolume Hvolume'.
  destruct (percent_to_float r ltac:(lia)) as (Hfloat & _).
  destruct (percent_to_float r' ltac:(lia)) as (Hfloat' & _).
  exists (of_uint63 (of_Z r) / 100)%float,
    (of_uint63 (of_Z r') / 100)%float.
  split; [|split].
  - unfold volume_level. rewrite Hgate, Hvolume.
    cbn [py_is_not_none py_float]. by rewrite Hfloat.
  - unfold volume_level. rewrite Hgate', Hvolume'.
    cbn [py_is_not_none py_float]. by rewrite Hfloat'.
  - pose proof levels_increasing_table as Htable.
    rewrite forallb_forall in Htable.
    specialize (Htable (Z.to_nat r)).
    rewrite forallb_forall in Htable.
    specialize (Htable ltac:(apply in_seq; lia) (Z.to_nat r')
                  ltac:(apply in_seq; lia)).
    by rewrite !Z2Nat.id in Htable by lia.
Qed.

Lemma volume_level_increasing_witness :
  ∃ level level',
    volume_level no_parse
      (sample_player (VBool true) VNone VNone (VInt 28) ∅)
    = Ok (VFloat level)
    ∧ volume_level no_parse
        (sample_player (VBool true) VNone VNone (VInt 29) ∅)
      = Ok (VFloat level')
    ∧ (level <? level')%float = true.
Proof.
  refine (volume_level_increasing no_parse
            (sample_player (VBool true) VNone VNone (VInt 28) ∅)
            (sample_player (VBool true) VNone VNone (VInt 29) ∅)
            28 29 _ _ _ _ _ _ _); (lia || reflexivity).
Defined.

(** X14. The ways [volume_level] can fail: only with the VOLUME_SET bit
    present, and only on a volume value that does not convert: a list
    ([TypeError]), a text that is not a number ([ValueError]), or an
    integer too large for a float ([OverflowError], never for 0 to
    100).  None, booleans and floats never make it fail. *)
Theorem volume_level_failures (float_of_str : string → option float)
    (self : SmartThingsMediaPlayer) (e : exn) :
  volume_level float_of_str self = Raise e →
  let volume :=
    get_attribute_value (_device self) Capability.audio_volume
      Attribute.VOLUME in
  has_feature (supported_features self)
    MediaPlayerEntityFeature.VOLUME_SET = true
  ∧ ((∃ l, volume = VList l ∧ e = TypeError)
     ∨ (∃ s, volume = VStr s ∧ float_of_str s = None ∧ e = ValueError)
     ∨ (∃ n, volume = VInt n ∧ e = OverflowError ∧ ¬ 0 ≤ n ≤ 100)).
Proof.
  cbv zeta. unfold volume_level.
  destruct (has_feature _ _); [|discriminate]. intros Hfail.
  split; [done|].
  destruct (get_attribute_value _ Capability.audio_volume _)
    as [|b|n|f|s|l]; cbn in Hfail; try discriminate.
  - right; right. exists n.
    destruct (py_float_of_int n) as [f|e'] eqn:Hn; [discriminate|].
    cbn in Hfail. injection Hfail as <-.
    unfold py_float_of_int in Hn.
    destruct (is_infinity _) eqn:Hinf; [|discriminate].
    injection Hn as <-. split; [done|]. split; [done|].
    intros Hr. destruct (percent_to_float n Hr) as (Hok & _).
    unfold py_float_of_int in Hok. by rewrite Hinf in Hok.
  - right; left. exists s.
    destruct (float_of_str s); cbn in Hfail; [discriminate|].
    by injection Hfail as <-.
  - left. exists l. by injection Hfail as <-.
Qed.

Lemma volume_level_failures_witness :
  volume_level no_parse
    (sample_player (VBool true) VNone VNone (VStr "loud") ∅)
  = Raise ValueError
  ∧ no_parse "loud" = None.
Proof.
  split; [reflexivity|].
  destruct (volume_level_failures no_parse
              (sample_player (VBool true) VNone VNone (VStr "loud") ∅)
              ValueError eq_refl)
    as [_ [(l & [=] & _)|[(s & _ & Hs & _)|(n & [=] & _)]]].
  reflexivity.
Defined.

(** ** Capability filter *)

(** X15. [get_capabilities] looks at the primary capabilities only: two
    reported lists that contain the same primaries get the same answer,
    whatever their order, their repetitions, and whatever else (switch
    included) they contain. *)
Theorem get_capabilities_primaries_only (capabilities capabilities'
    : list string) :
  (∀ c, c ∈ media_player_capabilities →
        (c ∈ capabilities ↔ c ∈ capabilities')) →
  get_capabilities capabilities = get_capabilities capabilities'.
Proof.
  intros Hsame. unfold get_capabilities.
  destruct (existsb _ media_player_capabilities) eqn:E.
  - apply existsb_exists in E as (c & Hc & Hin).
    apply bool_decide_eq_true in Hin.
    replace (existsb _ media_player_capabilities) with true; [done|].
    symmetry. apply existsb_exists. exists c. split; [done|].
    apply bool_decide_eq_true, Hsame; [|done]. by apply list_elem_of_In.
  - destruct (existsb (λ c, bool_decide (c ∈ capabilities')) _) eqn:E';
      [|done].
    apply existsb_exists in E' as (c & Hc & Hin).
    apply bool_decide_eq_true in Hin.
    assert (Ht : existsb (λ c, bool_decide (c ∈ capabilities))
                   media_player_capabilities = true); [|congruence].
    apply existsb_exists. exists c. split; [done|].
    apply bool_decide_eq_true, Hsame; [|done]. by apply list_elem_of_In.
Qed.

Lemma get_capabilities_primaries_only_witness :
  get_capabilities ["switch"; "audioMute"; "refresh"; "audioMute"]
  = get_capabilities ["audioMute"].
Proof.
  apply (get_capabilities_primaries_only
           ["switch"; "audioMute"; "refresh"; "audioMute"] ["audioMute"]).
  intros c Hc. apply list_elem_of_In in Hc. cbv in Hc.
  rewrite !list_elem_of_In. simpl. intuition congruence.
Defined.

(** ** Command dispatch *)

(** X16. Different actions never turn into the same remote call: if two
    actions leave the same calls submitted and a call was submitted at
    all, they are the same action, unless both set the volume (two
    volumes may truncate to the same percentage). *)
Theorem dispatch_distinguishes_actions
    (remote : list Call → Call → result unit)
    (self : SmartThingsMediaPlayer) (a b : Action) (log : list Call) :
  (invoke remote self a log).2 = (invoke remote self b log).2 →
  (invoke remote self a log).2 ≠ log →
  a = b ∨ ∃ volume volume',
            a = SetVolumeLevel volume ∧ b = SetVolumeLevel volume'.
Proof.
  assert (Hgrow : ∀ c : Call, log ≠ log ++ [c]).
  { intros c Heq. apply (f_equal length) in Heq.
    rewrite length_app in Heq. cbn in Heq. lia. }
  intros Hsame Hsent.
  destruct a as [| |[]|v| | | | | |src|sh|r],
           b as [| |[]|v'| | | | | |src'|sh'|r'];
    first
      [ left; reflexivity
      | right; eexists _, _; split; reflexivity
      | unfold invoke, async_turn_off, async_turn_on, async_mute_volume,
          async_set_volume_level, async_volume_up, async_volume_down,
          async_media_play, async_media_pause, async_media_stop,
          async_select_source, async_set_shuffle, async_set_repeat,
          exec_bind, exec_lift, execute_device_command,
          Command.SET_PLAYBACK_REPEAT in Hsame, Hsent;
        repeat match type of Hsame with
               | context [py_int_of_float ?x] =>
                   destruct (py_int_of_float x)
               end;
        cbn [fst snd] in Hsame, Hsent;
        first
          [ by destruct Hsent
          | by destruct (Hgrow _ Hsame)
          | by destruct (Hgrow _ (eq_sym Hsame))
          | apply app_inv_head in Hsame;
            first [ discriminate Hsame
                  | injection Hsame as ->; left; reflexivity ] ] ].
Qed.

Lemma dispatch_distinguishes_actions_witness :
  (invoke accepting (bare_player VNone VNone VNone VNone)
     (SetVolumeLevel 0.5) []).2
  = [(Capability.audio_volume, Command.SET_VOLUME, Some (VInt 50))]
  ∧ (invoke accepting (bare_player VNone VNone VNone VNone)
       (SetVolumeLevel 0.50390625) []).2
    = [(Capability.audio_volume, Command.SET_VOLUME, Some (VInt 50))]
  ∧ (SetVolumeLevel 0.5 = SetVolumeLevel 0.50390625
     ∨ ∃ volume volume',
         SetVolumeLevel 0.5 = SetVolumeLevel volume
         ∧ SetVolumeLevel 0.50390625 = SetVolumeLevel volume').
Proof.
  split; [reflexivity|]. split; [reflexivity|].
  apply (dispatch_distinguishes_actions accepting
           (bare_player VNone VNone VNone VNone)
           (SetVolumeLevel 0.5) (SetVolumeLevel 0.50390625) []).
  - reflexivity.
  - discriminate.
Defined.
